(** * Session registry and JSON-RPC dispatcher of the Puppeteer MCP service

    A shallow embedding of [app/browser_manager.py], [app/utils.py],
    [app/routes.py] and the [/jsonrpc] endpoint of [main.py].

    Modelling conventions.
    - Python [dict]s are association lists in insertion order with unique
      keys: [d[k] = v] updates in place or appends, [pop] removes, iteration
      follows the list.  The registry relies on that order
      ([next(iter(self._pages.keys()))]).
    - Playwright objects (browser, context, page) are opaque handles: every
      driver call that creates an object returns a fresh natural number, and
      [==] on them is identity of handles.  Driver calls are recorded in an
      event log and are assumed to succeed; the [async] functions run to
      completion without interleaving.
    - A Python exception is a value of [exn]; a computation returns its
      outcome together with the state it left behind, so that mutations
      made before a [raise] stay visible.
    - The mutually recursive [start_browser] / [create_context] /
      [create_page] take a fuel argument; the lemmas about them hold for
      every fuel above a small explicit bound. *)

From Stdlib Require Import String Ascii List ZArith Lia Bool Arith DecimalString.
Import ListNotations.
Set Warnings "-register-all".
Local Open Scope list_scope.
Local Open Scope string_scope.

(* ===================================================================== *)
(** ** Python values                                                      *)
(* ===================================================================== *)

Module Py.

(** [dict] with [str] keys. *)
Section Dict.
Context {V : Type}.

Definition dict := list (string * V).

(** [d.get(k)] *)
Fixpoint get (k : string) (d : dict) : option V :=
  match d with
  | [] => None
  | (k', v) :: d' => if k' =? k then Some v else get k d'
  end.

(** [k in d] *)
Definition contains (k : string) (d : dict) : bool :=
  match get k d with Some _ => true | None => false end.

(** [d[k] = v] *)
Fixpoint set (k : string) (v : V) (d : dict) : dict :=
  match d with
  | [] => [(k, v)]
  | (k', v') :: d' =>
      if k' =? k then (k', v) :: d' else (k', v') :: set k v d'
  end.

(** [d.pop(k)], the dictionary that is left *)
Definition remove (k : string) (d : dict) : dict :=
  filter (fun kv => negb (fst kv =? k)) d.

Definition keys (d : dict) : list string := map fst d.
Definition values (d : dict) : list V := map snd d.

(** [next(iter(d.keys()))] and [next(iter(d.values()))], when [d] is
    not empty *)
Definition first_key (d : dict) : option string := hd_error (keys d).
Definition first_value (d : dict) : option V := hd_error (values d).

(** Keys are unique, as in every Python dictionary. *)
Definition wf (d : dict) : Prop := NoDup (keys d).
End Dict.
Arguments dict V : clear implicits.

(** JSON documents as [json.loads] returns them.  Numbers are integers
    here; no claim depends on fractional numbers. *)
Inductive json : Type :=
| JNull
| JBool (b : bool)
| JNum (n : Z)
| JStr (s : string)
| JArr (items : list json)
| JObj (members : dict json).

(** Truth value of a JSON value in a Python condition. *)
Definition truthy (v : json) : bool :=
  match v with
  | JNull => false
  | JBool b => b
  | JNum n => negb (n =? 0)%Z
  | JStr s => negb (s =? "")
  | JArr items => match items with [] => false | _ => true end
  | JObj members => match members with [] => false | _ => true end
  end.

(** Truth value of an [Optional[str]]. *)
Definition str_truthy (o : option string) : bool :=
  match o with
  | Some s => negb (s =? "")
  | None => false
  end.

(** [x or default] on an [Optional[str]]. *)
Definition str_or (o : option string) (default : string) : string :=
  match o with
  | Some s => if s =? "" then default else s
  | None => default
  end.

(** [o == s] for an [Optional[str]] [o]. *)
Definition opt_str_eqb (o : option string) (s : string) : bool :=
  match o with
  | Some s' => s' =? s
  | None => false
  end.

(** An [Optional[str]] put into a JSON document. *)
Definition json_of_opt_str (o : option string) : json :=
  match o with
  | Some s => JStr s
  | None => JNull
  end.

(** [isinstance(v, dict)], [isinstance(v, str)], [isinstance(v, (dict, list))] *)
Definition is_dict (v : json) : bool :=
  match v with JObj _ => true | _ => false end.
Definition is_str (v : json) : bool :=
  match v with JStr _ => true | _ => false end.
Definition is_dict_or_list (v : json) : bool :=
  match v with JObj _ | JArr _ => true | _ => false end.

(** [v == "..."] for a JSON value [v]. *)
Definition json_str_eqb (v : json) (s : string) : bool :=
  match v with JStr s' => s' =? s | _ => false end.

(** [type(v).__name__], used in the text of attribute errors. *)
Definition type_name (v : json) : string :=
  match v with
  | JNull => "NoneType"
  | JBool _ => "bool"
  | JNum _ => "int"
  | JStr _ => "str"
  | JArr _ => "list"
  | JObj _ => "dict"
  end.

(** [str(n)] for a non-negative [int]. *)
Definition str_of_nat (n : nat) : string :=
  NilZero.string_of_uint (Nat.to_uint n).

(** [s.startswith(p)] *)
Definition startswith (s p : string) : bool := String.prefix p s.

(** [s.replace(a, b)] for one-character [a] and [b]. *)
Fixpoint replace (a b : ascii) (s : string) : string :=
  match s with
  | EmptyString => EmptyString
  | String c s' => String (if Ascii.eqb c a then b else c) (replace a b s')
  end.

(** Exceptions.  [RPCException] is the class of [app/utils.py]; [id] and
    [data] are [JNull] for Python's [None].  Every other exception is
    kept as its class name and its [str(e)]. *)
Inductive exn : Type :=
| RPCException (code : Z) (message : string) (id : json) (data : json)
| PyError (cls : string) (message : string).

(** [str(e)] *)
Definition str_of_exn (e : exn) : string :=
  match e with
  | RPCException _ message _ _ => message
  | PyError _ message => message
  end.

(** ['T' object has no attribute 'a'] *)
Definition AttributeError (v : json) (a : string) : exn :=
  PyError "AttributeError"
    ("'" ++ type_name v ++ "' object has no attribute '" ++ a ++ "'").

(** Outcome of running a piece of Python. *)
Inductive result (A : Type) : Type :=
| Ok (a : A)
| Raise (e : exn)
| OutOfFuel.
Arguments Ok {A} a.
Arguments Raise {A} e.
Arguments OutOfFuel {A}.

(** Stateful computations that may raise. *)
Definition M (S A : Type) : Type := S -> result A * S.

Definition ret {S A} (a : A) : M S A := fun s => (Ok a, s).

Definition bind {S A B} (m : M S A) (k : A -> M S B) : M S B :=
  fun s =>
    match m s with
    | (Ok a, s') => k a s'
    | (Raise e, s') => (Raise e, s')
    | (OutOfFuel, s') => (OutOfFuel, s')
    end.

Definition raise {S A} (e : exn) : M S A := fun s => (Raise e, s).

Definition out_of_fuel {S A} : M S A := fun s => (OutOfFuel, s).

(** [try: m  except Exception as e: h e] *)
Definition try_except {S A} (m : M S A) (h : exn -> M S A) : M S A :=
  fun s =>
    match m s with
    | (Raise e, s') => h e s'
    | r => r
    end.

Definition gets {S A} (f : S -> A) : M S A := fun s => (Ok (f s), s).
Definition modify {S} (f : S -> S) : M S unit := fun s => (Ok tt, f s).

(** [if c: m] *)
Definition when {S} (c : bool) (m : M S unit) : M S unit :=
  if c then m else ret tt.

(** [for x in xs: body x] *)
Fixpoint for_each {S A} (xs : list A) (body : A -> M S unit) : M S unit :=
  match xs with
  | [] => ret tt
  | x :: xs' => bind (body x) (fun _ => for_each xs' body)
  end.

End Py.

Import Py.

Declare Scope py_scope.
Delimit Scope py_scope with py.
Notation "x <- m ;; k" := (bind m (fun x => k))
(at level 61, m at next level, right associativity) : py_scope.
Notation "m ;; k" := (bind m (fun _ => k))
(at level 61, right associativity) : py_scope.
Local Open Scope py_scope.

(** [d.get(k, default)] *)
Definition dget {V} (k : string) (d : dict V) (default : V) : V :=
  match Py.get k d with
  | Some v => v
  | None => default
  end.

(* ===================================================================== *)
(** ** app/config_loader.py                                               *)
(* ===================================================================== *)

Module ConfigLoader.

(** The loaded [config.json]. *)
Record t := mk { config : dict json }.

Definition get (self : t) (key : string) (default : json) : json :=
  dget key (config self) default.

Definition get_browser_config (self : t) : dict json :=
  [ ("browser_type", get self "browser_type" (JStr "chromium"));
    ("headless", get self "headless" (JBool true));
    ("user_agent", get self "user_agent" JNull);
    ("viewport_size", get self "viewport_size" JNull);
    ("slow_mo", get self "slow_mo" (JNum 0));
    ("proxy", get self "proxy" JNull) ].

(** What opening the configuration file and [json.load] give: no such
    file, text that is not JSON, or the parsed document. *)
Inductive file_outcome : Type :=
| FileNotFound
| InvalidJSON
| FileContent (config_data : json).

(** [self._load_config()].  A document that is not an object has no [get]:
    the [AttributeError] is none of the exceptions the function handles. *)
Definition _load_config (config_path : string) (file : file_outcome)
  : result (dict json) :=
  match file with
  | FileNotFound =>
      Raise (PyError "FileNotFoundError"
               ("Configuration file not found: " ++ config_path))
  | InvalidJSON =>
      Raise (PyError "ValueError"
               ("Invalid JSON in configuration file: " ++ config_path))
  | FileContent config_data =>
      match config_data with
      | JObj members =>
          if negb (is_dict (dget "service" members JNull))
          then Raise (PyError "ValueError"
                        "Service configuration is missing or invalid.")
          else if negb (is_str (dget "browser_type" members JNull))
          then Raise (PyError "ValueError"
                        "Browser type configuration is missing or invalid.")
          else Ok members
      | _ => Raise (AttributeError config_data "get")
      end
  end.

(** [ConfigLoader(config_path)] *)
Definition new (config_path : string) (file : file_outcome) : result t :=
  match _load_config config_path file with
  | Ok members => Ok (mk members)
  | Raise e => Raise e
  | OutOfFuel => OutOfFuel
  end.

Definition get_service_config (self : t) : result (dict json) :=
  match get self "service" (JObj []) with
  | JObj service_cfg =>
      Ok [ ("host", dget "host" service_cfg (JStr "0.0.0.0"));
           ("port", dget "port" service_cfg (JNum 8080));
           ("log_level", dget "log_level" service_cfg (JStr "INFO"));
           ("default_timeout", dget "default_timeout" service_cfg (JNum 30000)) ]
  | service_cfg => Raise (AttributeError service_cfg "get")
  end.

Definition get_security_config (self : t) : json :=
  get self "security" (JObj []).

End ConfigLoader.

(* ===================================================================== *)
(** ** app/browser_manager.py                                             *)
(* ===================================================================== *)

Module BrowserManager.

(** Playwright objects. *)
Record Browser := mkBrowser { browser_handle : nat; is_connected : bool }.
Record BrowserContext := mkContext { context_handle : nat }.
Record Page := mkPage { page_handle : nat; page_context : BrowserContext }.

(** [a == b] on two context objects: the same object. *)
Definition same_context (a b : BrowserContext) : bool :=
  Nat.eqb (context_handle a) (context_handle b).

(** What the driver was asked to do, oldest call first. *)
Inductive event : Type :=
| EvPlaywrightStart (h : nat)
| EvLaunch (browser_type : string) (launch_options : dict json) (h : nat)
| EvNewContext (browser_h : nat) (options : dict json) (h : nat)
| EvNewPage (context_h : nat) (h : nat)
| EvPageClose (h : nat)
| EvContextClose (h : nat)
| EvBrowserClose (h : nat)
| EvPlaywrightStop (h : nat).

(** The fields of a [BrowserManager] instance, followed by the state of
    the driver it talks to: the next unused handle and the call log. *)
Record t := mk {
  config_loader : ConfigLoader.t;
  playwright : option nat;
  browser : option Browser;
  _contexts : dict BrowserContext;
  _pages : dict Page;
  _active_context_id : option string;
  _active_page_id : option string;
  _context_counter : nat;
  _page_counter : nat;
  next_handle : nat;
  events : list event
}.

Definition _default_context_id_prefix : string := "default_ctx_".
Definition _default_page_id_prefix : string := "default_page_".

(** [BrowserManager(config_loader)] against a driver that has not been
    used yet. *)
Definition init (cfg : ConfigLoader.t) : t :=
  mk cfg None None [] [] None None 0 0 0 [].

Definition set_playwright (v : option nat) (s : t) : t :=
  mk (config_loader s) v (browser s) (_contexts s) (_pages s)
     (_active_context_id s) (_active_page_id s) (_context_counter s)
     (_page_counter s) (next_handle s) (events s).
Definition set_browser (v : option Browser) (s : t) : t :=
  mk (config_loader s) (playwright s) v (_contexts s) (_pages s)
     (_active_context_id s) (_active_page_id s) (_context_counter s)
     (_page_counter s) (next_handle s) (events s).
Definition set_contexts (v : dict BrowserContext) (s : t) : t :=
  mk (config_loader s) (playwright s) (browser s) v (_pages s)
     (_active_context_id s) (_active_page_id s) (_context_counter s)
     (_page_counter s) (next_handle s) (events s).
Definition set_pages (v : dict Page) (s : t) : t :=
  mk (config_loader s) (playwright s) (browser s) (_contexts s) v
     (_active_context_id s) (_active_page_id s) (_context_counter s)
     (_page_counter s) (next_handle s) (events s).
Definition set_active_context_id (v : option string) (s : t) : t :=
  mk (config_loader s) (playwright s) (browser s) (_contexts s) (_pages s)
     v (_active_page_id s) (_context_counter s)
     (_page_counter s) (next_handle s) (events s).
Definition set_active_page_id (v : option string) (s : t) : t :=
  mk (config_loader s) (playwright s) (browser s) (_contexts s) (_pages s)
     (_active_context_id s) v (_context_counter s)
     (_page_counter s) (next_handle s) (events s).
Definition set_context_counter (v : nat) (s : t) : t :=
  mk (config_loader s) (playwright s) (browser s) (_contexts s) (_pages s)
     (_active_context_id s) (_active_page_id s) v
     (_page_counter s) (next_handle s) (events s).
Definition set_page_counter (v : nat) (s : t) : t :=
  mk (config_loader s) (playwright s) (browser s) (_contexts s) (_pages s)
     (_active_context_id s) (_active_page_id s) (_context_counter s)
     v (next_handle s) (events s).
Definition set_next_handle (v : nat) (s : t) : t :=
  mk (config_loader s) (playwright s) (browser s) (_contexts s) (_pages s)
     (_active_context_id s) (_active_page_id s) (_context_counter s)
     (_page_counter s) v (events s).
Definition set_events (v : list event) (s : t) : t :=
  mk (config_loader s) (playwright s) (browser s) (_contexts s) (_pages s)
     (_active_context_id s) (_active_page_id s) (_context_counter s)
     (_page_counter s) (next_handle s) v.

(** *** The driver *)

Definition fresh : M t nat :=
  fun s => (Ok (next_handle s), set_next_handle (S (next_handle s)) s).

Definition emit (e : event) : M t unit :=
  modify (fun s => set_events ((events s ++ [e])%list) s).

(** [await async_playwright().start()] *)
Definition async_playwright_start : M t nat :=
  h <- fresh ;; emit (EvPlaywrightStart h) ;; ret h.

(** [await self.playwright.<browser_type>.launch] with [launch_options] *)
Definition launch (browser_type : string) (launch_options : dict json)
  : M t Browser :=
  h <- fresh ;; emit (EvLaunch browser_type launch_options h) ;;
  ret (mkBrowser h true).

(** [await browser.new_context] with [options] *)
Definition new_context (b : Browser) (options : dict json)
  : M t BrowserContext :=
  h <- fresh ;; emit (EvNewContext (browser_handle b) options h) ;;
  ret (mkContext h).

(** [await context.new_page()] *)
Definition new_page (c : BrowserContext) : M t Page :=
  h <- fresh ;; emit (EvNewPage (context_handle c) h) ;;
  ret (mkPage h c).

(** [await page.close()], [await context.close()], [await browser.close()],
    [await playwright.stop()] *)
Definition page_close (p : Page) : M t unit :=
  emit (EvPageClose (page_handle p)).
Definition context_close (c : BrowserContext) : M t unit :=
  emit (EvContextClose (context_handle c)).
Definition browser_close (b : Browser) : M t unit :=
  emit (EvBrowserClose (browser_handle b)).
Definition playwright_stop (h : nat) : M t unit :=
  emit (EvPlaywrightStop h).

(** [self.browser and self.browser.is_connected()] *)
Definition browser_running (b : option Browser) : bool :=
  match b with
  | Some b => is_connected b
  | None => false
  end.

(** [k in d] for an [Optional[str]] key. *)
Definition opt_in {V} (k : option string) (d : dict V) : bool :=
  match k with
  | Some k => contains k d
  | None => false
  end.

(** *** Creation

    [start_browser] calls [create_context], which calls [create_page] and,
    when the browser is down, [start_browser]; [create_page] calls
    [create_context] when no context is active. *)

Fixpoint start_browser (fuel : nat) : M t unit :=
  match fuel with
  | 0 => out_of_fuel
  | S fuel' =>
    b <- gets browser ;;
    if browser_running b then ret tt
    else
      pw <- async_playwright_start ;;
      modify (set_playwright (Some pw)) ;;
      cfg <- gets config_loader ;;
      let browser_config := ConfigLoader.get_browser_config cfg in
      let browser_type := dget "browser_type" browser_config (JStr "chromium") in
      let launch_options :=
        [ ("headless", dget "headless" browser_config (JBool true));
          ("slow_mo", dget "slow_mo" browser_config (JNum 0)) ] in
      let launch_options :=
        if truthy (dget "proxy" browser_config JNull)
        then Py.set "proxy" (dget "proxy" browser_config JNull) launch_options
        else launch_options in
      try_except
        (b <- (if json_str_eqb browser_type "chromium"
               then launch "chromium" launch_options
               else if json_str_eqb browser_type "firefox"
               then launch "firefox" launch_options
               else if json_str_eqb browser_type "webkit"
               then launch "webkit" launch_options
               else launch "chromium" launch_options) ;;
         modify (set_browser (Some b)) ;;
         _ <- create_context fuel' (Some "initial_default_context") None ;;
         ret tt)
        (fun e =>
           pw <- gets playwright ;;
           match pw with
           | Some h => playwright_stop h
           | None => ret tt
           end ;;
           raise e)
  end

with create_context (fuel : nat) (context_id : option string)
       (context_options : option (dict json)) : M t string :=
  match fuel with
  | 0 => out_of_fuel
  | S fuel' =>
    b <- gets browser ;;
    (if negb (browser_running b) then start_browser fuel' else ret tt) ;;
    b <- gets browser ;;
    match b with
    | None =>
        raise (PyError "ConnectionError"
                 "Browser is not available after attempting to start.")
    | Some b =>
      let options := match context_options with Some o => o | None => [] end in
      cfg <- gets config_loader ;;
      let browser_cfg := ConfigLoader.get_browser_config cfg in
      let options :=
        if truthy (dget "user_agent" browser_cfg JNull)
           && negb (contains "user_agent" options)
        then Py.set "user_agent" (dget "user_agent" browser_cfg JNull) options
        else options in
      let options :=
        if truthy (dget "viewport_size" browser_cfg JNull)
           && negb (contains "viewport" options)
        then Py.set "viewport" (dget "viewport_size" browser_cfg JNull) options
        else options in
      new_ctx <- new_context b options ;;
      modify (fun s => set_context_counter (_context_counter s + 1) s) ;;
      n <- gets _context_counter ;;
      let c_id := str_or context_id (_default_context_id_prefix ++ str_of_nat n) in
      modify (fun s => set_contexts (Py.set c_id new_ctx (_contexts s)) s) ;;
      active <- gets _active_context_id ;;
      when (negb (str_truthy active)
            || opt_str_eqb context_id "initial_default_context")
           (modify (set_active_context_id (Some c_id))) ;;
      _ <- create_page fuel' (Some c_id) (Some ("initial_page_for_" ++ c_id)) ;;
      ret c_id
    end
  end

with create_page (fuel : nat) (context_id page_id : option string)
  : M t string :=
  match fuel with
  | 0 => out_of_fuel
  | S fuel' =>
    active <- gets _active_context_id ;;
    let target_context_id :=
      if str_truthy context_id then context_id else active in
    contexts <- gets _contexts ;;
    target_context_id <-
      (if negb (str_truthy target_context_id)
          || negb (opt_in target_context_id contexts)
       then
         if negb (str_truthy active)
         then create_context fuel' None None
         else raise (PyError "ValueError"
                       ("Context ID '"
                        ++ match target_context_id with
                           | Some c => c
                           | None => "None"
                           end
                        ++ "' not found."))
       else ret (match target_context_id with Some c => c | None => "" end)) ;;
    contexts <- gets _contexts ;;
    match Py.get target_context_id contexts with
    | None => raise (PyError "KeyError" target_context_id)
    | Some ctx =>
      page <- new_page ctx ;;
      modify (fun s => set_page_counter (_page_counter s + 1) s) ;;
      n <- gets _page_counter ;;
      let p_id := str_or page_id (_default_page_id_prefix ++ str_of_nat n) in
      modify (fun s => set_pages (Py.set p_id page (_pages s)) s) ;;
      active_page <- gets _active_page_id ;;
      when (negb (str_truthy active_page)
            || (str_truthy page_id
                && match page_id with
                   | Some p => startswith p "initial_page_for_"
                   | None => false
                   end))
           (modify (set_active_page_id (Some p_id))) ;;
      ret p_id
    end
  end.

(** *** Lookup *)

Definition get_active_page (s : t) : option Page :=
  if str_truthy (_active_page_id s) && opt_in (_active_page_id s) (_pages s)
  then match _active_page_id s with
       | Some p => Py.get p (_pages s)
       | None => None
       end
  else first_value (_pages s).

Definition get_page_by_id (page_id : string) (s : t) : option Page :=
  Py.get page_id (_pages s).

Definition get_active_context (s : t) : option BrowserContext :=
  if str_truthy (_active_context_id s)
     && opt_in (_active_context_id s) (_contexts s)
  then match _active_context_id s with
       | Some c => Py.get c (_contexts s)
       | None => None
       end
  else None.

Definition get_context_by_id (context_id : string) (s : t)
  : option BrowserContext :=
  Py.get context_id (_contexts s).

(** *** Selection *)

(** The first tracked page of context object [ctx], in registry order:
    the [for pid, page_obj in self._pages.items()] scan with its [break]. *)
Definition first_page_of (ctx : BrowserContext) (pages : dict Page)
  : option (string * Page) :=
  find (fun kv => same_context (page_context (snd kv)) ctx) pages.

(** The log-only test on [self._contexts[context_id].pages] that ends the
    Python function changes nothing and is left out. *)
Definition set_active_context (context_id : string) : M t bool :=
  contexts <- gets _contexts ;;
  match Py.get context_id contexts with
  | Some ctx =>
      modify (set_active_context_id (Some context_id)) ;;
      modify (set_active_page_id None) ;;
      pages <- gets _pages ;;
      match first_page_of ctx pages with
      | Some (pid, _) => modify (set_active_page_id (Some pid))
      | None => ret tt
      end ;;
      ret true
  | None => ret false
  end.

Definition set_active_page (page_id : string) : M t bool :=
  pages <- gets _pages ;;
  match Py.get page_id pages with
  | Some page =>
      modify (set_active_page_id (Some page_id)) ;;
      contexts <- gets _contexts ;;
      match find (fun kv => same_context (snd kv) (page_context page)) contexts with
      | Some (ctx_id, _) =>
          active <- gets _active_context_id ;;
          when (negb (opt_str_eqb active ctx_id))
               (modify (set_active_context_id (Some ctx_id)))
      | None => ret tt
      end ;;
      ret true
  | None => ret false
  end.

(** *** Closing *)

Definition close_page (page_id : string) : M t bool :=
  pages <- gets _pages ;;
  match Py.get page_id pages with
  | Some page =>
      modify (fun s => set_pages (Py.remove page_id (_pages s)) s) ;;
      page_close page ;;
      active <- gets _active_page_id ;;
      when (opt_str_eqb active page_id)
           (modify (set_active_page_id None) ;;
            pages <- gets _pages ;;
            match first_key pages with
            | Some p => modify (set_active_page_id (Some p))
            | None => ret tt
            end) ;;
      ret true
  | None => ret false
  end.

(** [[pid for pid, page in self._pages.items() if page.context == context]] *)
Definition pages_of (ctx : BrowserContext) (pages : dict Page) : list string :=
  keys (filter (fun kv => same_context (page_context (snd kv)) ctx) pages).

Definition close_context (context_id : string) : M t bool :=
  contexts <- gets _contexts ;;
  match Py.get context_id contexts with
  | Some ctx =>
      modify (fun s => set_contexts (Py.remove context_id (_contexts s)) s) ;;
      pages <- gets _pages ;;
      let pages_to_close := pages_of ctx pages in
      for_each pages_to_close (fun pid => _ <- close_page pid ;; ret tt) ;;
      context_close ctx ;;
      active <- gets _active_context_id ;;
      when (opt_str_eqb active context_id)
           (modify (set_active_context_id None) ;;
            contexts <- gets _contexts ;;
            match first_key contexts with
            | Some c =>
                modify (set_active_context_id (Some c)) ;;
                _ <- set_active_context c ;; ret tt
            | None => ret tt
            end) ;;
      ret true
  | None => ret false
  end.

Definition close_browser : M t unit :=
  b <- gets browser ;;
  match b with
  | Some b' =>
      when (is_connected b')
           (browser_close b' ;; modify (set_browser None))
  | None => ret tt
  end ;;
  pw <- gets playwright ;;
  match pw with
  | Some h => playwright_stop h ;; modify (set_playwright None)
  | None => ret tt
  end ;;
  modify (set_contexts []) ;;
  modify (set_pages []) ;;
  modify (set_active_context_id None) ;;
  modify (set_active_page_id None).

End BrowserManager.

(* ===================================================================== *)
(** ** app/utils.py                                                       *)
(* ===================================================================== *)

Module Utils.

Definition JSON_RPC_PARSE_ERROR : Z := -32700.
Definition JSON_RPC_INVALID_REQUEST : Z := -32600.
Definition JSON_RPC_METHOD_NOT_FOUND : Z := -32601.
Definition JSON_RPC_INVALID_PARAMS : Z := -32602.
Definition JSON_RPC_INTERNAL_ERROR : Z := -32603.
Definition BROWSER_OPERATION_ERROR : Z := -32000.
Definition PAGE_NOT_AVAILABLE_ERROR : Z := -32001.
Definition ELEMENT_NOT_FOUND_ERROR : Z := -32002.
Definition CONFIG_ERROR : Z := -32003.

Definition create_jsonrpc_error (id : json) (code : Z) (message : string)
  (data : json) : json :=
  let error_obj := [("code", JNum code); ("message", JStr message)] in
  let error_obj :=
    match data with
    | JNull => error_obj
    | _ => Py.set "data" data error_obj
    end in
  JObj [("jsonrpc", JStr "2.0"); ("error", JObj error_obj); ("id", id)].

Definition create_jsonrpc_success (id : json) (result : json) : json :=
  JObj [("jsonrpc", JStr "2.0"); ("result", result); ("id", id)].

(** [v.get(k, default)] on a value that need not be a [dict]. *)
Definition py_get {W} (v : json) (k : string) (default : json) : M W json :=
  match v with
  | JObj d => ret (dget k d default)
  | _ => raise (AttributeError v "get")
  end.

Definition get_params {W} (request_data : json) : M W json :=
  params <- py_get request_data "params" JNull ;;
  match params with
  | JNull => ret (JObj [])
  | _ =>
      if negb (is_dict_or_list params)
      then
        rpc_id <- py_get request_data "id" JNull ;;
        raise (RPCException JSON_RPC_INVALID_PARAMS
                 "Invalid params: Must be object or array." rpc_id JNull)
      else ret params
  end.

(** The decorator: the wrapped function returns a response dictionary
    whatever the function it wraps does. *)
Definition api_method_handler {W}
  (func_to_be_wrapped : json -> json -> M W json)
  : json -> json -> M W json :=
  fun params rpc_id =>
    try_except
      (result <- func_to_be_wrapped params rpc_id ;;
       ret (create_jsonrpc_success rpc_id result))
      (fun e =>
         match e with
         | RPCException code message id data =>
             let current_rpc_id :=
               match id with JNull => rpc_id | _ => id end in
             ret (create_jsonrpc_error current_rpc_id code message data)
         | PyError _ message =>
             ret (create_jsonrpc_error rpc_id JSON_RPC_INTERNAL_ERROR
                    ("Internal server error: " ++ message) JNull)
         end).

End Utils.

(* ===================================================================== *)
(** ** app/routes.py                                                      *)
(* ===================================================================== *)

Module Routes.
Import Utils.

(** What the module globals [_browser_manager] and [_config_loader] hold:
    [None], the object [main.py] passed at startup, or any other value
    that [initialize_routes] was given. *)
Inductive manager_ref : Type :=
| NoManager
| Manager (m : BrowserManager.t)
| NotAManager (v : json).

Inductive loader_ref : Type :=
| NoLoader
| Loader (c : ConfigLoader.t)
| NotALoader (v : json).

Record globals := mkGlobals {
  _browser_manager : manager_ref;
  _config_loader : loader_ref
}.

Definition initialize_routes (browser_manager : manager_ref)
  (config_loader : loader_ref) : M globals unit :=
  modify (fun _ => mkGlobals browser_manager config_loader).

(** [not _browser_manager] is [negb] of this. *)
Definition manager_truthy (r : manager_ref) : bool :=
  match r with
  | NoManager => false
  | Manager _ => true
  | NotAManager v => truthy v
  end.

(** [await _browser_manager.<attr>(...)]: the method runs on the manager
    object and its effects stay in the global. *)
Definition on_manager {A} (attr : string) (m : M BrowserManager.t A)
  : M globals A :=
  fun g =>
    match _browser_manager g with
    | Manager bm =>
        let (r, bm') := m bm in
        (r, mkGlobals (Manager bm') (_config_loader g))
    | NotAManager v => (Raise (AttributeError v attr), g)
    | NoManager => (Raise (AttributeError JNull attr), g)
    end.

(** The page a handler works on: the active page, or a page created on
    the spot when the registry has none. *)
Definition _get_active_page_or_raise (fuel : nat)
  : M globals BrowserManager.Page :=
  mgr <- gets _browser_manager ;;
  if negb (manager_truthy mgr)
  then raise (RPCException BROWSER_OPERATION_ERROR
                "Browser manager not initialized." JNull JNull)
  else
    page <- on_manager "get_active_page" (gets BrowserManager.get_active_page) ;;
    match page with
    | Some p => ret p
    | None =>
        try_except
          (_ <- on_manager "create_page"
                  (BrowserManager.create_page fuel None None) ;;
           page <- on_manager "get_active_page"
                     (gets BrowserManager.get_active_page) ;;
           match page with
           | Some p => ret p
           | None =>
               raise (RPCException PAGE_NOT_AVAILABLE_ERROR
                        "No active page available and failed to create a new one."
                        JNull JNull)
           end)
          (fun e =>
             raise (RPCException PAGE_NOT_AVAILABLE_ERROR
                      ("No active page available. Auto-creation failed: "
                       ++ str_of_exn e) JNull JNull))
    end.

(** The functions decorated with [@api_method_handler]. *)
Inductive handler : Type :=
| h_navigate
| h_get_page_title
| h_get_current_url
| h_take_page_screenshot
| h_get_page_content
| h_click_element
| h_fill_form_field
| h_get_element_text
| h_execute_javascript
| h_create_context
| h_switch_context
| h_close_context
| h_get_element_attribute
| h_get_console_logs.

Section Handlers.

(** The handlers that drive a page (navigate, click, screenshot, ...)
    hand their work to Playwright; what their undecorated bodies do is
    left open. *)
Variable page_action : handler -> json -> json -> M globals json.

Definition puppeteer_create_context (fuel : nat) (params rpc_id : json)
  : M globals json :=
  mgr <- gets _browser_manager ;;
  if negb (manager_truthy mgr)
  then raise (RPCException BROWSER_OPERATION_ERROR
                "Browser manager not initialized." rpc_id JNull)
  else
    context_options <- py_get params "context_options" (JObj []) ;;
    match context_options with
    | JObj options =>
        try_except
          (context_id <- on_manager "create_context"
                           (BrowserManager.create_context fuel None (Some options)) ;;
           ret (JObj [("status", JStr "success"); ("context_id", JStr context_id)]))
          (fun e =>
             raise (RPCException BROWSER_OPERATION_ERROR
                      ("Failed to create context: " ++ str_of_exn e)
                      rpc_id JNull))
    | _ =>
        raise (RPCException JSON_RPC_INVALID_PARAMS
                 "'context_options' must be an object." rpc_id JNull)
    end.

Definition puppeteer_switch_context (params rpc_id : json) : M globals json :=
  context_id <- py_get params "context_id" JNull ;;
  match context_id with
  | JStr cid =>
    if negb (truthy context_id)
    then raise (RPCException JSON_RPC_INVALID_PARAMS
                  "'context_id' parameter is required and must be a string."
                  rpc_id JNull)
    else
      mgr <- gets _browser_manager ;;
      if negb (manager_truthy mgr)
      then raise (RPCException BROWSER_OPERATION_ERROR
                    "Browser manager not initialized." rpc_id JNull)
      else
        try_except
          (success <- on_manager "set_active_context"
                        (BrowserManager.set_active_context cid) ;;
           if (success : bool)
           then
             active_context_id <-
               on_manager "_active_context_id"
                 (gets BrowserManager._active_context_id) ;;
             active_page_id <-
               on_manager "_active_page_id"
                 (gets BrowserManager._active_page_id) ;;
             ret (JObj [("status", JStr "success");
                        ("active_context_id", json_of_opt_str active_context_id);
                        ("active_page_id", json_of_opt_str active_page_id)])
           else
             raise (RPCException BROWSER_OPERATION_ERROR
                      ("Failed to switch to context ID '" ++ cid
                       ++ "'. Context not found.") rpc_id JNull))
          (fun e =>
             raise (RPCException BROWSER_OPERATION_ERROR
                      ("Failed to switch context: " ++ str_of_exn e)
                      rpc_id JNull))
  | _ =>
      raise (RPCException JSON_RPC_INVALID_PARAMS
               "'context_id' parameter is required and must be a string."
               rpc_id JNull)
  end.

Definition puppeteer_close_context (params rpc_id : json) : M globals json :=
  context_id <- py_get params "context_id" JNull ;;
  match context_id with
  | JStr cid =>
    if negb (truthy context_id)
    then raise (RPCException JSON_RPC_INVALID_PARAMS
                  "'context_id' parameter is required and must be a string."
                  rpc_id JNull)
    else
      mgr <- gets _browser_manager ;;
      if negb (manager_truthy mgr)
      then raise (RPCException BROWSER_OPERATION_ERROR
                    "Browser manager not initialized." rpc_id JNull)
      else
        try_except
          (success <- on_manager "close_context"
                        (BrowserManager.close_context cid) ;;
           if (success : bool)
           then ret (JObj [("status", JStr "success");
                           ("closed_context_id", JStr cid)])
           else
             raise (RPCException BROWSER_OPERATION_ERROR
                      ("Failed to close context ID '" ++ cid
                       ++ "'. Context not found or already closed.")
                      rpc_id JNull))
          (fun e =>
             raise (RPCException BROWSER_OPERATION_ERROR
                      ("Failed to close context: " ++ str_of_exn e)
                      rpc_id JNull))
  | _ =>
      raise (RPCException JSON_RPC_INVALID_PARAMS
               "'context_id' parameter is required and must be a string."
               rpc_id JNull)
  end.

Definition puppeteer_get_console_logs (params rpc_id : json) : M globals json :=
  ret (JObj [("status", JStr "success");
             ("logs", JArr []);
             ("message", JStr "Log retrieval is not fully implemented yet. Console messages should be monitored via Playwright's event system.")]).

(** The undecorated body of each handler. *)
Definition body (fuel : nat) (h : handler) : json -> json -> M globals json :=
  match h with
  | h_create_context => puppeteer_create_context fuel
  | h_switch_context => puppeteer_switch_context
  | h_close_context => puppeteer_close_context
  | h_get_console_logs => puppeteer_get_console_logs
  | _ => page_action h
  end.

(** What a name of the module is bound to. *)
Inductive attribute : Type :=
| Registered (h : handler)
| InitializeRoutes
| ManagerGlobal
| LoaderGlobal
| NotAHandler (type_error : string).

(** The names [app/routes.py] binds, in the order of the file, followed
    by the attributes the interpreter gives every module object.  For a
    name that is not a handler, [NotAHandler] carries the text of the
    [TypeError] that calling it with [(params, rpc_id)] and awaiting the
    outcome raises. *)
Definition namespace : dict attribute :=
  [ ("BrowserManager",
       NotAHandler "BrowserManager.__init__() takes 2 positional arguments but 3 were given");
    ("ConfigLoader",
       NotAHandler "ConfigLoader.__init__() takes from 1 to 2 positional arguments but 3 were given");
    ("api_method_handler",
       NotAHandler "api_method_handler() takes 1 positional argument but 2 were given");
    ("RPCException",
       NotAHandler "object RPCException can't be used in 'await' expression");
    ("BROWSER_OPERATION_ERROR", NotAHandler "'int' object is not callable");
    ("PAGE_NOT_AVAILABLE_ERROR", NotAHandler "'int' object is not callable");
    ("JSON_RPC_INVALID_PARAMS", NotAHandler "'int' object is not callable");
    ("ELEMENT_NOT_FOUND_ERROR", NotAHandler "'int' object is not callable");
    ("Dict", NotAHandler "Type Dict cannot be instantiated; use dict() instead");
    ("Any", NotAHandler "Any cannot be instantiated");
    ("Optional", NotAHandler "Cannot instantiate typing.Optional");
    ("Union", NotAHandler "Cannot instantiate typing.Union");
    ("List", NotAHandler "Type List cannot be instantiated; use list() instead");
    ("base64", NotAHandler "'module' object is not callable");
    ("os", NotAHandler "'module' object is not callable");
    ("logging", NotAHandler "'module' object is not callable");
    ("logger", NotAHandler "'Logger' object is not callable");
    ("_browser_manager", ManagerGlobal);
    ("_config_loader", LoaderGlobal);
    ("initialize_routes", InitializeRoutes);
    ("_get_active_page_or_raise",
       NotAHandler "_get_active_page_or_raise() takes 0 positional arguments but 2 were given");
    ("puppeteer_navigate", Registered h_navigate);
    ("puppeteer_get_page_title", Registered h_get_page_title);
    ("puppeteer_get_current_url", Registered h_get_current_url);
    ("puppeteer_take_page_screenshot", Registered h_take_page_screenshot);
    ("puppeteer_get_page_content", Registered h_get_page_content);
    ("puppeteer_click_element", Registered h_click_element);
    ("puppeteer_fill_form_field", Registered h_fill_form_field);
    ("puppeteer_get_element_text", Registered h_get_element_text);
    ("puppeteer_execute_javascript", Registered h_execute_javascript);
    ("puppeteer_create_context", Registered h_create_context);
    ("puppeteer_switch_context", Registered h_switch_context);
    ("puppeteer_close_context", Registered h_close_context);
    ("puppeteer_get_element_attribute", Registered h_get_element_attribute);
    ("puppeteer_get_console_logs", Registered h_get_console_logs);
    ("__name__", NotAHandler "'str' object is not callable");
    ("__doc__", NotAHandler "'NoneType' object is not callable");
    ("__package__", NotAHandler "'str' object is not callable");
    ("__loader__", NotAHandler "'SourceFileLoader' object is not callable");
    ("__spec__", NotAHandler "'ModuleSpec' object is not callable");
    ("__file__", NotAHandler "'str' object is not callable");
    ("__cached__", NotAHandler "'str' object is not callable");
    ("__builtins__", NotAHandler "'dict' object is not callable");
    ("__annotations__", NotAHandler "'dict' object is not callable");
    ("__dict__", NotAHandler "'dict' object is not callable");
    ("__class__", NotAHandler "module() argument 'name' must be str");
    ("__init__", NotAHandler "module.__init__() argument 'name' must be str");
    ("__new__", NotAHandler "object.__new__(X): X is not a type object");
    ("__repr__", NotAHandler "expected 0 arguments, got 2");
    ("__str__", NotAHandler "expected 0 arguments, got 2");
    ("__hash__", NotAHandler "expected 0 arguments, got 2");
    ("__getattribute__", NotAHandler "expected 1 argument, got 2");
    ("__setattr__", NotAHandler "attribute name must be string");
    ("__delattr__", NotAHandler "expected 1 argument, got 2");
    ("__dir__", NotAHandler "module.__dir__() takes no arguments (2 given)");
    ("__eq__", NotAHandler "expected 1 argument, got 2");
    ("__ne__", NotAHandler "expected 1 argument, got 2");
    ("__lt__", NotAHandler "expected 1 argument, got 2");
    ("__le__", NotAHandler "expected 1 argument, got 2");
    ("__gt__", NotAHandler "expected 1 argument, got 2");
    ("__ge__", NotAHandler "expected 1 argument, got 2");
    ("__format__", NotAHandler "module.__format__() takes exactly one argument (2 given)");
    ("__reduce__", NotAHandler "module.__reduce__() takes no arguments (2 given)");
    ("__reduce_ex__", NotAHandler "module.__reduce_ex__() takes exactly one argument (2 given)");
    ("__getstate__", NotAHandler "module.__getstate__() takes no arguments (2 given)");
    ("__sizeof__", NotAHandler "module.__sizeof__() takes no arguments (2 given)");
    ("__init_subclass__", NotAHandler "module.__init_subclass__() takes no arguments (2 given)");
    ("__subclasshook__",
       NotAHandler "object NotImplementedType can't be used in 'await' expression") ].

(** [hasattr(routes, name)] and [getattr(routes, name)] *)
Definition hasattr (name : string) : bool := contains name namespace.
Definition getattr (name : string) : option attribute := Py.get name namespace.

(** ['T' object is not callable] for what a module global holds. *)
Definition not_callable (type_name : string) : exn :=
  PyError "TypeError" ("'" ++ type_name ++ "' object is not callable").

(** [await api_function(params, rpc_id)] *)
Definition call (fuel : nat) (api_function : attribute) (params rpc_id : json)
  : M globals json :=
  match api_function with
  | Registered h => api_method_handler (body fuel h) params rpc_id
  | InitializeRoutes =>
      initialize_routes (NotAManager params) (NotALoader rpc_id) ;;
      raise (PyError "TypeError"
               "object NoneType can't be used in 'await' expression")
  | ManagerGlobal =>
      mgr <- gets _browser_manager ;;
      raise (not_callable match mgr with
                          | NoManager => "NoneType"
                          | Manager _ => "BrowserManager"
                          | NotAManager v => type_name v
                          end)
  | LoaderGlobal =>
      ldr <- gets _config_loader ;;
      raise (not_callable match ldr with
                          | NoLoader => "NoneType"
                          | Loader _ => "ConfigLoader"
                          | NotALoader v => type_name v
                          end)
  | NotAHandler type_error => raise (PyError "TypeError" type_error)
  end.

End Handlers.

End Routes.

(* ===================================================================== *)
(** ** main.py: the [/jsonrpc] endpoint                                   *)
(* ===================================================================== *)

Module Main.
Import Utils Routes.

Section Endpoint.

Variable page_action : handler -> json -> json -> M globals json.

(** [method_name.replace(".", "_")] on a value that need not be a [str]. *)
Definition api_function_name_of {W} (method_name : json) : M W string :=
  match method_name with
  | JStr s => ret (replace "."%char "_"%char s)
  | _ => raise (AttributeError method_name "replace")
  end.

(** [body] is what [await request.json()] gave: [None] when it raised.
    The outcome [Ok content] stands for returning [JSONResponse(content)];
    [Raise e] for an exception that leaves the handler. *)
Definition jsonrpc_handler (fuel : nat) (body : option json)
  : M globals json :=
  match body with
  | None =>
      ret (create_jsonrpc_error JNull JSON_RPC_PARSE_ERROR "Parse error" JNull)
  | Some request_data =>
      rpc_id <- py_get request_data "id" JNull ;;
      match request_data with
      | JObj members =>
          if negb (json_str_eqb (dget "jsonrpc" members JNull) "2.0")
             || negb (contains "method" members)
          then ret (create_jsonrpc_error rpc_id JSON_RPC_INVALID_REQUEST
                      "Invalid Request" JNull)
          else
            let method_name := dget "method" members JNull in
            api_function_name <- api_function_name_of method_name ;;
            if negb (hasattr api_function_name)
            then ret (create_jsonrpc_error rpc_id JSON_RPC_METHOD_NOT_FOUND
                        "Method not found" JNull)
            else
              match getattr api_function_name with
              | None => raise (PyError "AttributeError" api_function_name)
              | Some api_function =>
                  try_except
                    (params <- get_params request_data ;;
                     call page_action fuel api_function params rpc_id)
                    (fun e =>
                       match e with
                       | RPCException code message _ data =>
                           ret (create_jsonrpc_error rpc_id code message data)
                       | PyError _ message =>
                           ret (create_jsonrpc_error rpc_id
                                  JSON_RPC_INTERNAL_ERROR
                                  ("Server error: " ++ message) JNull)
                       end)
              end
      | _ =>
          ret (create_jsonrpc_error rpc_id JSON_RPC_INVALID_REQUEST
                 "Invalid Request" JNull)
      end
  end.

End Endpoint.

End Main.

(* ===================================================================== *)
(** ** Derived notions used in the statements                             *)
(* ===================================================================== *)

Module Registry.
Import BrowserManager.

(** The identifier [create_page] gives the page it creates. *)
Definition new_page_id (page_id : option string) (s : t) : string :=
  str_or page_id (_default_page_id_prefix ++ str_of_nat (_page_counter s + 1)).

(** The identifier [create_context] gives the context it creates. *)
Definition new_context_id (context_id : option string) (s : t) : string :=
  str_or context_id
    (_default_context_id_prefix ++ str_of_nat (_context_counter s + 1)).

(** Whether [create_page] makes the page it creates the active one. *)
Definition activates_page (page_id : option string) (s : t) : bool :=
  negb (str_truthy (_active_page_id s))
  || (str_truthy page_id
      && match page_id with
         | Some p => startswith p "initial_page_for_"
         | None => false
         end).

(** Whether [create_context] makes the context it creates the active one. *)
Definition activates_context (context_id : option string) (s : t) : bool :=
  negb (str_truthy (_active_context_id s))
  || opt_str_eqb context_id "initial_default_context".

(** The state in which [create_page] leaves [s] once its target context
    object [ctx] is known. *)
Definition page_created (ctx : BrowserContext) (page_id : option string)
  (s : t) : t :=
  mk (config_loader s) (playwright s) (browser s) (_contexts s)
     (Py.set (new_page_id page_id s) (mkPage (next_handle s) ctx) (_pages s))
     (_active_context_id s)
     (if activates_page page_id s then Some (new_page_id page_id s)
      else _active_page_id s)
     (_context_counter s) (_page_counter s + 1) (S (next_handle s))
     (events s ++ [EvNewPage (context_handle ctx) (next_handle s)])%list.

(** The first half of [create_page]: the context identifier the page goes
    to.  It is the argument, else the active context; when that names no
    tracked context, a new default context if none is active, and a
    [ValueError] otherwise. *)
Definition resolve_target (fuel : nat) (context_id : option string)
  : M t string :=
  fun s =>
    let active := _active_context_id s in
    let target := if str_truthy context_id then context_id else active in
    if negb (str_truthy target) || negb (opt_in target (_contexts s))
    then
      if negb (str_truthy active)
      then create_context fuel None None s
      else (Raise (PyError "ValueError"
                     ("Context ID '"
                      ++ match target with Some c => c | None => "None" end
                      ++ "' not found.")), s)
    else (Ok (match target with Some c => c | None => "" end), s).

(** The options [create_context] passes to the driver. *)
Definition merged_options (cfg : ConfigLoader.t)
  (context_options : option (dict json)) : dict json :=
  let options := match context_options with Some o => o | None => [] end in
  let browser_cfg := ConfigLoader.get_browser_config cfg in
  let options :=
    if truthy (dget "user_agent" browser_cfg JNull)
       && negb (contains "user_agent" options)
    then Py.set "user_agent" (dget "user_agent" browser_cfg JNull) options
    else options in
  if truthy (dget "viewport_size" browser_cfg JNull)
     && negb (contains "viewport" options)
  then Py.set "viewport" (dget "viewport_size" browser_cfg JNull) options
  else options.

(** The state in which [create_context] leaves [s] when browser [b] is
    up: the new context, then its initial page. *)
Definition context_created (b : Browser) (context_id : option string)
  (context_options : option (dict json)) (s : t) : t :=
  let ctx := mkContext (next_handle s) in
  let c_id := new_context_id context_id s in
  page_created ctx (Some ("initial_page_for_" ++ c_id))
    (mk (config_loader s) (playwright s) (browser s)
        (Py.set c_id ctx (_contexts s)) (_pages s)
        (if activates_context context_id s then Some c_id
         else _active_context_id s)
        (_active_page_id s) (_context_counter s + 1) (_page_counter s)
        (S (next_handle s))
        (events s
         ++ [EvNewContext (browser_handle b)
               (merged_options (config_loader s) context_options)
               (next_handle s)])%list).

(** The browser type and the launch options [start_browser] reads from the
    configuration. *)
Definition launch_type (cfg : ConfigLoader.t) : string :=
  let browser_type :=
    dget "browser_type" (ConfigLoader.get_browser_config cfg) (JStr "chromium") in
  if json_str_eqb browser_type "chromium" then "chromium"
  else if json_str_eqb browser_type "firefox" then "firefox"
  else if json_str_eqb browser_type "webkit" then "webkit"
  else "chromium".

Definition launch_options_of (cfg : ConfigLoader.t) : dict json :=
  let browser_config := ConfigLoader.get_browser_config cfg in
  let launch_options :=
    [ ("headless", dget "headless" browser_config (JBool true));
      ("slow_mo", dget "slow_mo" browser_config (JNum 0)) ] in
  if truthy (dget "proxy" browser_config JNull)
  then Py.set "proxy" (dget "proxy" browser_config JNull) launch_options
  else launch_options.

(** The browser object a launch from state [s] returns. *)
Definition launched_browser (s : t) : Browser :=
  mkBrowser (S (next_handle s)) true.

(** The state of [start_browser] between the launch and the creation of
    the initial context. *)
Definition launched (s : t) : t :=
  mk (config_loader s) (Some (next_handle s)) (Some (launched_browser s))
     (_contexts s) (_pages s) (_active_context_id s) (_active_page_id s)
     (_context_counter s) (_page_counter s) (S (S (next_handle s)))
     (events s
      ++ [EvPlaywrightStart (next_handle s);
          EvLaunch (launch_type (config_loader s))
            (launch_options_of (config_loader s)) (S (next_handle s))])%list.

(** The state in which [start_browser] leaves [s] when the browser was
    not running. *)
Definition started (s : t) : t :=
  context_created (launched_browser s) (Some "initial_default_context") None
    (launched s).

(** The state in which [close_page] leaves [s] when [page_id] names the
    tracked page [page]. *)
Definition page_closed (page_id : string) (page : Page) (s : t) : t :=
  mk (config_loader s) (playwright s) (browser s) (_contexts s)
     (Py.remove page_id (_pages s)) (_active_context_id s)
     (if opt_str_eqb (_active_page_id s) page_id
      then first_key (Py.remove page_id (_pages s))
      else _active_page_id s)
     (_context_counter s) (_page_counter s) (next_handle s)
     (events s ++ [EvPageClose (page_handle page)])%list.

(** The state after closing the pages [pids] one after the other. *)
Fixpoint pages_closed (pids : list string) (s : t) : t :=
  match pids with
  | [] => s
  | pid :: rest => pages_closed rest (snd (close_page pid s))
  end.

(** The driver calls [close_browser] makes from state [s]. *)
Definition shutdown_events (s : t) : list event :=
  (match browser s with
   | Some b => if is_connected b then [EvBrowserClose (browser_handle b)] else []
   | None => []
   end
   ++ match playwright s with
      | Some h => [EvPlaywrightStop h]
      | None => []
      end)%list.

(** The state in which [close_browser] leaves [s]. *)
Definition browser_closed (s : t) : t :=
  mk (config_loader s) None
     (match browser s with
      | Some b => if is_connected b then None else Some b
      | None => None
      end)
     [] [] None None (_context_counter s) (_page_counter s) (next_handle s)
     (events s ++ shutdown_events s)%list.



(** The state in which [close_context] leaves [s] when [c] names the
    tracked context object [ctx]: the context is forgotten, its pages are
    closed, the driver closes the context, and if it was the active one the
    first context left, with its first page, takes over. *)
Definition context_closed (c : string) (ctx : BrowserContext) (s : t) : t :=
  let s2 := pages_closed (pages_of ctx (_pages s))
              (set_contexts (Py.remove c (_contexts s)) s) in
  let s3 := set_events (events s2 ++ [EvContextClose (context_handle ctx)])%list
              s2 in
  if opt_str_eqb (_active_context_id s) c
  then match Py.remove c (_contexts s) with
       | (c', ctx') :: _ =>
           set_active_page_id
             (option_map fst (first_page_of ctx' (_pages s2)))
             (set_active_context_id (Some c') s3)
       | [] => set_active_context_id None s3
       end
  else s3.

(** The selection points at tracked entries, or at nothing. *)
Definition selection_tracked (s : t) : Prop :=
  (forall c, _active_context_id s = Some c -> In c (keys (_contexts s)))
  /\ (forall p, _active_page_id s = Some p -> In p (keys (_pages s))).

(** The tracked identifier of the context object that owns [page], found
    as [set_active_page] finds it. *)
Definition owner_id (page : Page) (s : t) : option string :=
  option_map fst
    (find (fun kv => same_context (snd kv) (page_context page)) (_contexts s)).

(** The selection invariant: when an active page is set and tracked, the
    context that owns it is the active context. *)
Definition selection_consistent (s : t) : Prop :=
  forall pid page,
    _active_page_id s = Some pid ->
    Py.get pid (_pages s) = Some page ->
    owner_id page s = _active_context_id s.


(** Identifiers are unique and none is the empty string. *)
Definition well_formed (s : t) : Prop :=
  wf (_contexts s) /\ wf (_pages s)
  /\ ~ In "" (keys (_contexts s)) /\ ~ In "" (keys (_pages s)).

(** The same, as a test that can be run on a concrete state. *)
Fixpoint distinct (l : list string) : bool :=
  match l with
  | [] => true
  | x :: rest => negb (existsb (String.eqb x) rest) && distinct rest
  end.

Definition well_formed_b (s : t) : bool :=
  distinct (keys (_contexts s)) && distinct (keys (_pages s))
  && negb (existsb (String.eqb "") (keys (_contexts s)))
  && negb (existsb (String.eqb "") (keys (_pages s))).

(** [m] keeps identifiers unique and non-empty, whatever its outcome. *)
Definition preserves {A} (m : M t A) : Prop :=
  forall s, well_formed s -> well_formed (snd (m s)).

(** The public operations of the registry. *)
Inductive operation : Type :=
| StartBrowser
| CreateContext (context_id : option string) (context_options : option (dict json))
| CreatePage (context_id page_id : option string)
| SetActiveContext (context_id : string)
| SetActivePage (page_id : string)
| ClosePage (page_id : string)
| CloseContext (context_id : string)
| CloseBrowser.

Definition run (fuel : nat) (o : operation) : M t unit :=
  match o with
  | StartBrowser => start_browser fuel
  | CreateContext context_id context_options =>
      _ <- create_context fuel context_id context_options ;; ret tt
  | CreatePage context_id page_id =>
      _ <- create_page fuel context_id page_id ;; ret tt
  | SetActiveContext context_id => _ <- set_active_context context_id ;; ret tt
  | SetActivePage page_id => _ <- set_active_page page_id ;; ret tt
  | ClosePage page_id => _ <- close_page page_id ;; ret tt
  | CloseContext context_id => _ <- close_context context_id ;; ret tt
  | CloseBrowser => close_browser
  end.

(** The states a manager built from configuration [cfg] can be in after
    any sequence of public operations, whether they returned or raised. *)
Inductive reachable (cfg : ConfigLoader.t) : t -> Prop :=
| reachable_init : reachable cfg (init cfg)
| reachable_step s fuel o r s' :
    reachable cfg s ->
    run fuel o s = (r, s') ->
    r <> OutOfFuel ->
    reachable cfg s'.

End Registry.

(** Concrete states used to exercise the statements. *)
Module Scenario.
Import BrowserManager Registry.

Definition cfg : ConfigLoader.t :=
  ConfigLoader.mk
    [ ("browser_type", JStr "chromium"); ("headless", JBool true);
      ("service", JObj [("port", JNum 8080)]) ].

(** The manager as [main.py] builds it, before the startup hook runs. *)
Definition fresh : t := init cfg.

(** After the startup hook: [start_browser()]. *)
Definition after_startup : t := snd (start_browser 3 fresh).

(** After [start_browser(); create_context()]. *)
Definition two_contexts : t :=
  snd (create_context 2 None None after_startup).

(** After [start_browser(); close_context("initial_default_context")]:
    the browser is up and the registry is empty. *)
Definition emptied : t :=
  snd (close_context "initial_default_context" after_startup).

(** After [start_browser(); create_context();
    close_page("initial_page_for_default_ctx_2")]: the second context is
    tracked and owns no tracked page. *)
Definition second_context_without_pages : t :=
  snd (close_page "initial_page_for_default_ctx_2" two_contexts).

(** The module globals of [app/routes.py] after the startup hook. *)
Definition globals : Routes.globals :=
  Routes.mkGlobals (Routes.Manager after_startup) (Routes.Loader cfg).

(** A stand-in for the page-driving handlers: every one reports success. *)
Definition page_action : Routes.handler -> json -> json -> M Routes.globals json :=
  fun _ _ _ => ret (JObj [("status", JStr "success")]).

(** The request body [{"jsonrpc": "2.0", "method": m, "params": p, "id": i}]. *)
Definition request (m : string) (p i : json) : option json :=
  Some (JObj [("jsonrpc", JStr "2.0"); ("method", JStr m);
              ("params", p); ("id", i)]).

End Scenario.

(** Shapes of the response dictionaries. *)
Module Envelope.
Import Utils.




End Envelope.
(* ===================================================================== *)
(** ** Dictionaries and strings                                           *)
(* ===================================================================== *)

Section DictFacts.
Context {V : Type}.
Implicit Types (d : dict V) (k : string) (v : V).

Lemma get_set_same k v d : Py.get k (Py.set k v d) = Some v.
Proof.
  induction d as [|[k' v'] d IH]; simpl.
  - now rewrite String.eqb_refl.
  - destruct (k' =? k) eqn:E; simpl; now rewrite E.
Qed.

Lemma get_set_other k k' v d :
  k <> k' -> Py.get k' (Py.set k v d) = Py.get k' d.
Proof.
  intros Hne. pose proof (proj2 (String.eqb_neq k k') Hne) as Hb.
  induction d as [|[k0 v0] d IH]; simpl.
  - now rewrite Hb.
  - destruct (k0 =? k) eqn:E; simpl.
    + apply String.eqb_eq in E. subst k0. now rewrite Hb.
    + now rewrite IH.
Qed.


Lemma set_absent k v d :
  Py.get k d = None -> Py.set k v d = (d ++ [(k, v)])%list.
Proof.
  induction d as [|[k0 v0] d IH]; simpl; [reflexivity|].
  destruct (k0 =? k); [discriminate|]. intros H. now rewrite IH.
Qed.

Lemma get_None_not_In k d : Py.get k d = None <-> ~ In k (keys d).
Proof.
  induction d as [|[k0 v0] d IH]; simpl.
  - tauto.
  - destruct (String.eqb_spec k0 k) as [->|Hne].
    + split; [discriminate|]. intros H. exfalso. apply H. now left.
    + rewrite IH. tauto.
Qed.

Lemma get_Some_In k v d : Py.get k d = Some v -> In (k, v) d.
Proof.
  induction d as [|[k0 v0] d IH]; simpl; [discriminate|].
  destruct (String.eqb_spec k0 k) as [->|Hne].
  - intros [= ->]. now left.
  - intros H. right. now apply IH.
Qed.

Lemma In_get k v d : wf d -> In (k, v) d -> Py.get k d = Some v.
Proof.
  unfold wf. induction d as [|[k0 v0] d IH]; simpl; [tauto|].
  intros Hnd [[= -> ->]|Hin].
  - now rewrite String.eqb_refl.
  - inversion Hnd as [|? ? Hk0 Hnd']; subst.
    destruct (String.eqb_spec k0 k) as [->|Hne].
    + exfalso. apply Hk0. change k with (fst (k, v)). now apply in_map.
    + now apply IH.
Qed.

Lemma contains_true k d : contains k d = true <-> In k (keys d).
Proof.
  unfold contains. destruct (Py.get k d) eqn:E.
  - split; [intros _|reflexivity].
    apply get_Some_In in E. change k with (fst (k, v)). now apply in_map.
  - split; [discriminate|]. intros H. now apply get_None_not_In in E.
Qed.

Lemma keys_set k v d : forall x, In x (keys (Py.set k v d)) <-> x = k \/ In x (keys d).
Proof.
  intros x. induction d as [|[k0 v0] d IH]; simpl.
  - intuition congruence.
  - destruct (String.eqb_spec k0 k) as [->|Hne]; simpl.
    + intuition congruence.
    + rewrite IH. intuition congruence.
Qed.

Lemma wf_set k v d : wf d -> wf (Py.set k v d).
Proof.
  unfold wf. induction d as [|[k0 v0] d IH]; simpl; intros Hnd.
  - constructor; [tauto|constructor].
  - inversion Hnd as [|? ? Hk0 Hnd']; subst.
    destruct (String.eqb_spec k0 k) as [->|Hne]; simpl.
    + now constructor.
    + constructor; [|now apply IH].
      intros Hin. apply keys_set in Hin. destruct Hin as [->|Hin]; tauto.
Qed.

Lemma get_remove_same k d : Py.get k (Py.remove k d) = None.
Proof.
  unfold Py.remove. induction d as [|[k0 v0] d IH]; simpl; [reflexivity|].
  destruct (k0 =? k) eqn:E; simpl; [assumption|]. now rewrite E.
Qed.

Lemma get_remove_other k k' d :
  k <> k' -> Py.get k' (Py.remove k d) = Py.get k' d.
Proof.
  intros Hne. unfold Py.remove.
  induction d as [|[k0 v0] d IH]; simpl; [reflexivity|].
  destruct (String.eqb_spec k0 k) as [->|Hne0]; simpl.
  - apply String.eqb_neq in Hne. now rewrite Hne.
  - now rewrite IH.
Qed.

Lemma keys_remove k d : forall x, In x (keys (Py.remove k d)) <-> x <> k /\ In x (keys d).
Proof.
  intros x. unfold Py.remove, keys. rewrite !in_map_iff. split.
  - intros [[k0 v0] [<- Hin]]. apply filter_In in Hin. destruct Hin as [Hin Hk].
    simpl in *. apply negb_true_iff, String.eqb_neq in Hk. split; [assumption|].
    exists (k0, v0). auto.
  - intros [Hne [[k0 v0] [<- Hin]]]. exists (k0, v0). split; [reflexivity|].
    apply filter_In. split; [assumption|]. simpl in *.
    now apply negb_true_iff, String.eqb_neq.
Qed.

Lemma wf_filter (f : string * V -> bool) d : wf d -> wf (filter f d).
Proof.
  unfold wf, keys. induction d as [|[k0 v0] d IH]; simpl; intros Hnd.
  - constructor.
  - inversion Hnd as [|? ? Hk0 Hnd']; subst.
    destruct (f (k0, v0)); simpl; [|now apply IH].
    constructor; [|now apply IH].
    intros Hin. apply Hk0. apply in_map_iff in Hin.
    destruct Hin as [kv [Hfst Hin]]. apply filter_In in Hin.
    apply in_map_iff. exists kv. tauto.
Qed.

Lemma wf_remove k d : wf d -> wf (Py.remove k d).
Proof. apply wf_filter. Qed.


End DictFacts.

Lemma existsb_eqb_In (x : string) (l : list string) :
  existsb (String.eqb x) l = true <-> In x l.
Proof.
  rewrite existsb_exists. split.
  - intros (y & Hin & Heq). apply String.eqb_eq in Heq. now subst.
  - intros Hin. exists x. split; [assumption|apply String.eqb_refl].
Qed.

Lemma distinct_NoDup (l : list string) :
  Registry.distinct l = true -> NoDup l.
Proof.
  induction l as [|x l IH]; cbn [Registry.distinct]; intros H.
  - constructor.
  - apply andb_true_iff in H. destruct H as [Hx Hl].
    constructor; [|now apply IH].
    intros Hin. apply existsb_eqb_In in Hin. rewrite Hin in Hx. discriminate.
Qed.

Lemma well_formed_b_sound (s : BrowserManager.t) :
  Registry.well_formed_b s = true -> Registry.well_formed s.
Proof.
  unfold Registry.well_formed_b, Registry.well_formed, wf. intros H.
  repeat (apply andb_true_iff in H; destruct H as [H ?]).
  repeat split.
  - now apply distinct_NoDup.
  - now apply distinct_NoDup.
  - intros Hin. apply existsb_eqb_In in Hin.
    match goal with Hn : negb _ = true |- _ => rewrite Hin in Hn; discriminate end.
  - intros Hin. apply existsb_eqb_In in Hin.
    match goal with Hn : negb _ = true |- _ => rewrite Hin in Hn; discriminate end.
Qed.

Lemma startswith_app (p s : string) : startswith (p ++ s) p = true.
Proof.
  unfold startswith. induction p as [|c p IH]; simpl.
  - now destruct s.
  - destruct (ascii_dec c c); [assumption|congruence].
Qed.

Lemma str_or_nonempty (o : option string) (default : string) :
  default <> "" -> str_or o default <> "".
Proof.
  intros Hd. destruct o as [s|]; simpl; [|assumption].
  destruct (String.eqb_spec s ""); assumption.
Qed.

Lemma str_truthy_Some (s : string) : s <> "" -> str_truthy (Some s) = true.
Proof. intros H. simpl. now apply negb_true_iff, String.eqb_neq. Qed.

Lemma str_or_Some (s default : string) : s <> "" -> str_or (Some s) default = s.
Proof. intros H. simpl. apply String.eqb_neq in H. now rewrite H. Qed.

(* ===================================================================== *)
(** ** The registry: creation                                             *)
(* ===================================================================== *)

Ltac run_step :=
  cbn [bind gets modify ret raise when out_of_fuel try_except for_each
       BrowserManager.fresh BrowserManager.emit BrowserManager.new_page BrowserManager.new_context BrowserManager.launch BrowserManager.async_playwright_start
       BrowserManager.page_close BrowserManager.context_close BrowserManager.browser_close BrowserManager.playwright_stop
       BrowserManager.set_playwright BrowserManager.set_browser BrowserManager.set_contexts BrowserManager.set_pages
       BrowserManager.set_active_context_id BrowserManager.set_active_page_id BrowserManager.set_context_counter
       BrowserManager.set_page_counter BrowserManager.set_next_handle BrowserManager.set_events
       BrowserManager.config_loader BrowserManager.playwright BrowserManager.browser BrowserManager._contexts BrowserManager._pages BrowserManager._active_context_id
       BrowserManager._active_page_id BrowserManager._context_counter BrowserManager._page_counter BrowserManager.next_handle BrowserManager.events
       fst snd negb orb andb].

Ltac run_all :=
  repeat progress
    unfold bind, gets, modify, ret, raise, when, out_of_fuel, try_except,
      BrowserManager.fresh, BrowserManager.emit, BrowserManager.new_page, BrowserManager.new_context, BrowserManager.launch, BrowserManager.async_playwright_start,
      BrowserManager.page_close, BrowserManager.context_close, BrowserManager.browser_close, BrowserManager.playwright_stop;
  cbn [BrowserManager.set_playwright BrowserManager.set_browser BrowserManager.set_contexts BrowserManager.set_pages
       BrowserManager.set_active_context_id BrowserManager.set_active_page_id BrowserManager.set_context_counter
       BrowserManager.set_page_counter BrowserManager.set_next_handle BrowserManager.set_events
       BrowserManager.config_loader BrowserManager.playwright BrowserManager.browser BrowserManager._contexts BrowserManager._pages BrowserManager._active_context_id
       BrowserManager._active_page_id BrowserManager._context_counter BrowserManager._page_counter BrowserManager.next_handle BrowserManager.events
       fst snd negb orb andb].

Section RegistryFacts.
Import BrowserManager Registry.



Lemma new_page_id_nonempty page_id s : new_page_id page_id s <> "".
Proof. apply str_or_nonempty. discriminate. Qed.

Lemma new_context_id_nonempty context_id s : new_context_id context_id s <> "".
Proof. apply str_or_nonempty. discriminate. Qed.

Lemma create_page_tracked fuel c ctx page_id s :
  c <> "" ->
  Py.get c (_contexts s) = Some ctx ->
  create_page (S fuel) (Some c) page_id s
  = (Ok (new_page_id page_id s), page_created ctx page_id s).
Proof.
  intros Hc Hget. cbn [create_page]. run_step.
  rewrite !(str_truthy_Some c Hc). run_step.
  unfold opt_in, contains. rewrite Hget. run_step.
  rewrite ?Hget. run_step.
  unfold page_created, activates_page, new_page_id.
  destruct (str_truthy (_active_page_id s)); [|reflexivity].
  destruct (str_truthy page_id); [|reflexivity].
  destruct page_id as [p|]; [|reflexivity].
  destruct (startswith p "initial_page_for_"); reflexivity.
Qed.

Lemma create_page_split fuel context_id page_id s :
  create_page (S fuel) context_id page_id s
  = match resolve_target fuel context_id s with
    | (Ok c, s1) =>
        match Py.get c (_contexts s1) with
        | Some ctx => (Ok (new_page_id page_id s1), page_created ctx page_id s1)
        | None => (Raise (PyError "KeyError" c), s1)
        end
    | (Raise e, s1) => (Raise e, s1)
    | (OutOfFuel, s1) => (OutOfFuel, s1)
    end.
Proof.
  cbn [create_page]. unfold resolve_target.
  unfold bind at 1. unfold gets at 1.
  unfold bind at 1. unfold gets at 1.
  unfold bind at 1. cbn zeta.
  set (target := if str_truthy context_id then context_id
                 else _active_context_id s).
  assert (Htail : forall c s1,
    (contexts <- gets _contexts ;;
     match Py.get c contexts with
     | Some ctx =>
         page <- new_page ctx ;;
         modify (fun s => set_page_counter (_page_counter s + 1) s) ;;
         n <- gets _page_counter ;;
         modify (fun s => set_pages
                   (Py.set (str_or page_id
                              (_default_page_id_prefix ++ str_of_nat n))
                      page (_pages s)) s) ;;
         active_page <- gets _active_page_id ;;
         when (negb (str_truthy active_page)
               || (str_truthy page_id
                   && match page_id with
                      | Some p => startswith p "initial_page_for_"
                      | None => false
                      end))
              (modify (set_active_page_id
                         (Some (str_or page_id
                                  (_default_page_id_prefix ++ str_of_nat n))))) ;;
         ret (str_or page_id (_default_page_id_prefix ++ str_of_nat n))
     | None => raise (PyError "KeyError" c)
     end) s1
    = match Py.get c (_contexts s1) with
      | Some ctx => (Ok (new_page_id page_id s1), page_created ctx page_id s1)
      | None => (Raise (PyError "KeyError" c), s1)
      end).
  { intros c s1. unfold bind at 1. unfold gets at 1.
    destruct (Py.get c (_contexts s1)) as [ctx|]; [|reflexivity].
    run_all. unfold page_created, activates_page, new_page_id.
    destruct (str_truthy (_active_page_id s1)); [|reflexivity].
    destruct (str_truthy page_id); [|reflexivity].
    destruct page_id as [p|]; [|reflexivity].
    destruct (startswith p "initial_page_for_"); reflexivity. }
  destruct (negb (str_truthy target) || negb (opt_in target (_contexts s)))%bool.
  - destruct (negb (str_truthy (_active_context_id s))).
    + destruct (create_context fuel None None s) as [[c| |] s1];
        [apply Htail | reflexivity | reflexivity].
    + reflexivity.
  - unfold ret at 1. apply Htail.
Qed.

Lemma create_context_running fuel b context_id context_options s :
  browser s = Some b ->
  is_connected b = true ->
  create_context (S (S fuel)) context_id context_options s
  = (Ok (new_context_id context_id s),
     context_created b context_id context_options s).
Proof.
  intros Hb Hconn. cbn [create_context]. run_step.
  rewrite Hb. cbn [browser_running]. rewrite Hconn. run_step.
  rewrite Hb. run_step.
  change (str_or context_id _) with (new_context_id context_id s).
  assert (Hne : new_context_id context_id s <> "")
    by apply new_context_id_nonempty.
  unfold context_created, activates_context.
  destruct (negb (str_truthy (_active_context_id s))
            || opt_str_eqb context_id "initial_default_context")%bool;
    run_step; unfold bind;
    rewrite create_page_tracked with (ctx := mkContext (next_handle s));
    try assumption; try (run_step; apply get_set_same);
    reflexivity.
Qed.

Lemma launched_running s : browser_running (browser (launched s)) = true.
Proof. reflexivity. Qed.

Lemma start_browser_running fuel s :
  browser_running (browser s) = true ->
  start_browser (S fuel) s = (Ok tt, s).
Proof.
  intros Hrun. cbn [start_browser]. run_step. now rewrite Hrun.
Qed.

Lemma start_browser_down fuel s :
  browser_running (browser s) = false ->
  start_browser (S (S (S fuel))) s = (Ok tt, started s).
Proof.
  intros Hrun. cbn [start_browser]. run_step. rewrite Hrun. run_step.
  unfold started, launched, launch_type.
  destruct (json_str_eqb _ "chromium");
    [|destruct (json_str_eqb _ "firefox");
      [|destruct (json_str_eqb _ "webkit")]];
    unfold try_except, bind; run_step;
    rewrite <- app_assoc; cbn [app];
    rewrite create_context_running with (b := launched_browser s);
    reflexivity.
Qed.


Lemma create_context_resume fuel context_id context_options s s1 :
  browser_running (browser s) = false ->
  start_browser fuel s = (Ok tt, s1) ->
  browser_running (browser s1) = true ->
  create_context (S fuel) context_id context_options s
  = create_context (S fuel) context_id context_options s1.
Proof.
  intros Hdown Hstart Hup. cbn [create_context]. run_step.
  rewrite Hdown, Hup. run_step. unfold bind at 1. rewrite Hstart.
  reflexivity.
Qed.

Lemma create_context_down fuel context_id context_options s :
  browser_running (browser s) = false ->
  create_context (S (S (S (S fuel)))) context_id context_options s
  = (Ok (new_context_id context_id (started s)),
     context_created (launched_browser s) context_id context_options
       (started s)).
Proof.
  intros Hrun.
  rewrite create_context_resume with (s1 := started s);
    [|assumption|now apply start_browser_down|reflexivity].
  now apply create_context_running.
Qed.

Lemma contexts_context_created b context_id context_options s :
  _contexts (context_created b context_id context_options s)
  = Py.set (new_context_id context_id s) (mkContext (next_handle s))
      (_contexts s).
Proof. reflexivity. Qed.

Lemma initial_page_nonempty c : "initial_page_for_" ++ c <> "".
Proof. discriminate. Qed.

Lemma activates_initial_page c s :
  activates_page (Some ("initial_page_for_" ++ c)) s = true.
Proof.
  unfold activates_page.
  rewrite (str_truthy_Some _ (initial_page_nonempty c)), startswith_app.
  apply orb_true_r.
Qed.

Lemma active_page_context_created b context_id context_options s :
  _active_page_id (context_created b context_id context_options s)
  = Some ("initial_page_for_" ++ new_context_id context_id s).
Proof.
  unfold context_created, page_created. cbn [_active_page_id].
  rewrite activates_initial_page.
  unfold new_page_id.
  now rewrite str_or_Some by apply initial_page_nonempty.
Qed.

Lemma pages_context_created b context_id context_options s :
  _pages (context_created b context_id context_options s)
  = Py.set ("initial_page_for_" ++ new_context_id context_id s)
      (mkPage (S (next_handle s)) (mkContext (next_handle s))) (_pages s).
Proof.
  unfold context_created, page_created. cbn [_pages next_handle].
  unfold new_page_id.
  now rewrite str_or_Some by apply initial_page_nonempty.
Qed.

Lemma active_context_context_created b context_id context_options s :
  _active_context_id (context_created b context_id context_options s)
  = if activates_context context_id s then Some (new_context_id context_id s)
    else _active_context_id s.
Proof. reflexivity. Qed.

Lemma create_page_heals_running fuel b page_id s :
  str_truthy (_active_context_id s) = false ->
  browser s = Some b ->
  is_connected b = true ->
  create_page (S (S (S fuel))) None page_id s
  = (Ok (new_page_id page_id (context_created b None None s)),
     page_created (mkContext (next_handle s)) page_id
       (context_created b None None s)).
Proof.
  intros Hact Hb Hconn. cbn [create_page]. run_step.
  cbn [str_truthy]. rewrite Hact. run_step.
  unfold bind at 1.
  rewrite create_context_running with (b := b) by assumption.
  run_step. rewrite contexts_context_created, get_set_same. run_step.
  unfold page_created, activates_page, new_page_id.
  destruct (str_truthy (_active_page_id _)); [|reflexivity].
  destruct (str_truthy page_id); [|reflexivity].
  destruct page_id as [p|]; [|reflexivity].
  destruct (startswith p "initial_page_for_"); reflexivity.
Qed.

(** C9.  [start_browser] on a manager whose browser is running returns at
    once: the outcome is [Ok tt] and the whole state, the browser handle,
    the registry, the selection and the driver log included, is the one it
    was called in, so nothing is launched and nothing is created. *)
Theorem start_browser_idempotent (fuel : nat) (s : t) :
  browser_running (browser s) = true ->
  start_browser (S fuel) s = (Ok tt, s).
Proof. apply start_browser_running. Qed.


Lemma start_browser_idempotent_witness :
  browser_running (browser Scenario.after_startup) = true
  /\ start_browser 1 Scenario.after_startup = (Ok tt, Scenario.after_startup).
Proof.
  split; [reflexivity|].
  apply (start_browser_idempotent 0 Scenario.after_startup). reflexivity.
Defined.

(** C5, as the code has it.  [create_page()] with no argument, on a
    registry that tracks no context and has no active context while the
    browser is running, returns normally.  It leaves exactly one context,
    [default_ctx_N], which is the active one, and two new pages that both
    belong to it: the initial page [create_context] always adds,
    [initial_page_for_default_ctx_N], which is the active page, and the page
    [default_page_M] whose identifier is returned and which is not made
    active. *)
Theorem create_page_self_healing (fuel : nat) (b : Browser) (s : t) :
  _contexts s = [] ->
  str_truthy (_active_context_id s) = false ->
  browser s = Some b ->
  is_connected b = true ->
  let ctx := mkContext (next_handle s) in
  let c_id := "default_ctx_" ++ str_of_nat (_context_counter s + 1) in
  let ip := "initial_page_for_" ++ c_id in
  let dp := "default_page_" ++ str_of_nat (_page_counter s + 1 + 1) in
  let s' := snd (create_page (3 + fuel) None None s) in
  fst (create_page (3 + fuel) None None s) = Ok dp
  /\ _contexts s' = [(c_id, ctx)]
  /\ _pages s'
     = Py.set dp (mkPage (S (S (next_handle s))) ctx)
         (Py.set ip (mkPage (S (next_handle s)) ctx) (_pages s))
  /\ _active_context_id s' = Some c_id
  /\ _active_page_id s' = Some ip
  /\ ip <> dp
  /\ (_pages s = [] ->
      _pages s' = [ (ip, mkPage (S (next_handle s)) ctx);
                    (dp, mkPage (S (S (next_handle s))) ctx) ]).
Proof.
  intros Hctx Hact Hb Hconn. cbn zeta.
  change (3 + fuel) with (S (S (S fuel))).
  rewrite create_page_heals_running with (b := b) by assumption.
  cbn [fst snd].
  assert (Hpages :
    _pages (page_created (mkContext (next_handle s)) None
              (context_created b None None s))
    = Py.set ("default_page_" ++ str_of_nat (_page_counter s + 1 + 1))
        (mkPage (S (S (next_handle s))) (mkContext (next_handle s)))
        (Py.set ("initial_page_for_"
                 ++ "default_ctx_" ++ str_of_nat (_context_counter s + 1))
           (mkPage (S (next_handle s)) (mkContext (next_handle s)))
           (_pages s))).
  { unfold page_created at 1. cbn [_pages].
    rewrite pages_context_created. reflexivity. }
  split; [reflexivity|]. split; [|split; [exact Hpages|]].
  { unfold page_created. cbn [_contexts].
    rewrite contexts_context_created, Hctx. reflexivity. }
  split; [|split; [|split; [discriminate|]]].
  - unfold page_created. cbn [_active_context_id].
    rewrite active_context_context_created.
    unfold activates_context. now rewrite Hact.
  - unfold page_created at 1. cbn [_active_page_id].
    unfold activates_page.
    rewrite active_page_context_created.
    rewrite (str_truthy_Some _ (initial_page_nonempty _)). reflexivity.
  - intros Hnil. rewrite Hpages, Hnil. reflexivity.
Qed.

Lemma create_page_self_healing_witness :
  fst (create_page 3 None None Scenario.emptied) = Ok "default_page_3"
  /\ _contexts (snd (create_page 3 None None Scenario.emptied))
     = [("default_ctx_2", mkContext 4)].
Proof.
  pose proof (create_page_self_healing 0 (mkBrowser 1 true) Scenario.emptied
                eq_refl eq_refl eq_refl eq_refl) as H.
  cbn zeta in H. destruct H as (Hr & Hc & _). split; [exact Hr | exact Hc].
Defined.

(** C5, the claim on concrete states.  With the browser running and the
    registry empty, [create_page()] leaves two new pages, and the page it
    returns is not the active one; on a manager whose browser was never
    started it leaves two contexts and three pages. *)
Lemma create_page_self_healing_counterexample :
  (fst (create_page 5 None None Scenario.emptied) = Ok "default_page_3"
   /\ keys (_contexts (snd (create_page 5 None None Scenario.emptied)))
      = ["default_ctx_2"]
   /\ keys (_pages (snd (create_page 5 None None Scenario.emptied)))
      = ["initial_page_for_default_ctx_2"; "default_page_3"]
   /\ _active_page_id (snd (create_page 5 None None Scenario.emptied))
      = Some "initial_page_for_default_ctx_2")
  /\ (_contexts Scenario.fresh = []
      /\ fst (create_page 5 None None Scenario.fresh) = Ok "default_page_3"
      /\ keys (_contexts (snd (create_page 5 None None Scenario.fresh)))
         = ["initial_default_context"; "default_ctx_2"]
      /\ keys (_pages (snd (create_page 5 None None Scenario.fresh)))
         = ["initial_page_for_initial_default_context";
            "initial_page_for_default_ctx_2"; "default_page_3"]).
Proof. vm_compute. repeat split. Qed.

(** *** What creation asks of the driver *)

Lemma events_context_created b context_id context_options s :
  events (context_created b context_id context_options s)
  = (events s
     ++ [ EvNewContext (browser_handle b)
            (merged_options (config_loader s) context_options) (next_handle s);
          EvNewPage (next_handle s) (S (next_handle s)) ])%list.
Proof.
  unfold context_created, page_created. cbn [events next_handle context_handle].
  now rewrite <- app_assoc.
Qed.

Lemma events_started s :
  events (started s)
  = (events s
     ++ [ EvPlaywrightStart (next_handle s);
          EvLaunch (launch_type (config_loader s))
            (launch_options_of (config_loader s)) (S (next_handle s));
          EvNewContext (S (next_handle s))
            (merged_options (config_loader s) None) (S (S (next_handle s)));
          EvNewPage (S (S (next_handle s))) (S (S (S (next_handle s)))) ])%list.
Proof.
  unfold started. rewrite events_context_created.
  unfold launched. cbn [events next_handle config_loader launched_browser
                        browser_handle].
  now rewrite <- app_assoc.
Qed.


Lemma running_browser s :
  browser_running (browser s) = true ->
  exists b, browser s = Some b /\ is_connected b = true.
Proof.
  unfold browser_running. destruct (browser s) as [b|]; [|discriminate].
  intros H. now exists b.
Qed.



(* ===================================================================== *)
(** ** The registry: selection                                            *)
(* ===================================================================== *)

Lemma same_context_eq a b : same_context a b = true <-> a = b.
Proof.
  unfold same_context. destruct a as [x], b as [y]. cbn [context_handle].
  rewrite Nat.eqb_eq. split; [now intros ->|now intros [= ->]].
Qed.

Lemma first_page_of_Some ctx pages pid page :
  first_page_of ctx pages = Some (pid, page) ->
  In (pid, page) pages /\ page_context page = ctx.
Proof.
  unfold first_page_of. intros H. apply find_some in H.
  destruct H as [Hin Hsame]. split; [assumption|].
  now apply same_context_eq.
Qed.

Lemma first_page_of_None ctx pages pid page :
  first_page_of ctx pages = None ->
  In (pid, page) pages -> page_context page <> ctx.
Proof.
  unfold first_page_of. intros H Hin Heq.
  pose proof (find_none _ _ H _ Hin) as Hf. cbn [snd] in Hf.
  apply same_context_eq in Heq. congruence.
Qed.

Lemma In_keys {V} (k : string) (v : V) (d : dict V) :
  In (k, v) d -> In k (keys d).
Proof. intros H. change k with (fst (k, v)). now apply in_map. Qed.

Lemma get_active_page_tracked s pid page :
  _active_page_id s = Some pid ->
  pid <> "" ->
  Py.get pid (_pages s) = Some page ->
  get_active_page s = Some page.
Proof.
  intros Ha Hne Hget. unfold get_active_page. rewrite Ha.
  rewrite (str_truthy_Some pid Hne). unfold opt_in, contains.
  now rewrite Hget.
Qed.

Lemma get_active_page_unset s :
  _active_page_id s = None -> get_active_page s = first_value (_pages s).
Proof. intros Ha. unfold get_active_page. now rewrite Ha. Qed.

(** C3, as the code has it.  When context [c] is tracked,
    [set_active_context(c)] returns [True] and makes [c] the active context.
    The active page identifier it leaves is either unset or the identifier
    of the first tracked page that belongs to [c].  In the first case
    [get_active_page()] does not answer "no page": it falls back to the
    first tracked page of the registry, and every tracked page then
    belongs to another context.  In the second case it returns that page
    of [c]. *)
Theorem set_active_context_active_page (s : t) (c : string)
  (ctx : BrowserContext) :
  wf (_pages s) ->
  ~ In "" (keys (_pages s)) ->
  Py.get c (_contexts s) = Some ctx ->
  let s' := snd (set_active_context c s) in
  fst (set_active_context c s) = Ok true
  /\ _active_context_id s' = Some c
  /\ _pages s' = _pages s
  /\ match first_page_of ctx (_pages s) with
     | Some (pid, page) =>
         _active_page_id s' = Some pid
         /\ page_context page = ctx
         /\ get_active_page s' = Some page
     | None =>
         _active_page_id s' = None
         /\ get_active_page s' = first_value (_pages s)
         /\ (forall page, first_value (_pages s) = Some page ->
                          page_context page <> ctx)
     end.
Proof.
  intros Hwf Hne Hget. cbn zeta. unfold set_active_context. run_step.
  rewrite Hget. run_step.
  destruct (first_page_of ctx (_pages s)) as [[pid page]|] eqn:Hf; run_step.
  - destruct (first_page_of_Some _ _ _ _ Hf) as [Hin Hown].
    repeat (split; [reflexivity|]).
    split; [assumption|].
    apply get_active_page_tracked with (pid := pid); [reflexivity| |].
    + intros ->. apply Hne. now apply In_keys in Hin.
    + cbn [_pages]. now apply In_get.
  - repeat (split; [reflexivity|]).
    intros page Hfirst. unfold first_value, values in Hfirst.
    destruct (_pages s) as [|[k p] rest]; [discriminate|].
    cbn in Hfirst. injection Hfirst as ->.
    apply (first_page_of_None _ _ k _ Hf). now left.
Qed.

Lemma set_active_context_active_page_witness :
  Py.get "initial_default_context" (_contexts Scenario.two_contexts)
  = Some (mkContext 2)
  /\ fst (set_active_context "initial_default_context" Scenario.two_contexts)
     = Ok true
  /\ _active_context_id
       (snd (set_active_context "initial_default_context"
               Scenario.two_contexts))
     = Some "initial_default_context".
Proof.
  split; [reflexivity|].
  destruct (well_formed_b_sound Scenario.two_contexts eq_refl)
    as (_ & Hwf & _ & Hne).
  pose proof (set_active_context_active_page Scenario.two_contexts
                "initial_default_context" (mkContext 2) Hwf Hne eq_refl) as H.
  exact (conj (proj1 H) (proj1 (proj2 H))).
Defined.

(** C3, the claim on a reachable state.  After [start_browser()],
    [create_context()] and [close_page("initial_page_for_default_ctx_2")],
    the call [set_active_context("default_ctx_2")] succeeds, and
    [get_active_page()] then returns the page of
    [initial_default_context]. *)
Lemma set_active_context_active_page_counterexample :
  let s := Scenario.second_context_without_pages in
  let s' := snd (set_active_context "default_ctx_2" s) in
  Py.get "default_ctx_2" (_contexts s) = Some (mkContext 4)
  /\ fst (set_active_context "default_ctx_2" s) = Ok true
  /\ _active_context_id s' = Some "default_ctx_2"
  /\ get_active_page s' = Some (mkPage 3 (mkContext 2))
  /\ owner_id (mkPage 3 (mkContext 2)) s' = Some "initial_default_context"
  /\ page_context (mkPage 3 (mkContext 2)) <> mkContext 4.
Proof. vm_compute. repeat split; discriminate. Qed.

(* ===================================================================== *)
(** ** The registry: closing                                              *)
(* ===================================================================== *)

Lemma close_page_run pid s :
  close_page pid s
  = match Py.get pid (_pages s) with
    | Some page => (Ok true, page_closed pid page s)
    | None => (Ok false, s)
    end.
Proof.
  unfold close_page. run_all.
  destruct (Py.get pid (_pages s)) as [page|]; [|reflexivity].
  unfold page_closed. run_all.
  destruct (opt_str_eqb (_active_page_id s) pid); run_all; [|reflexivity].
  destruct (first_key (Py.remove pid (_pages s))); reflexivity.
Qed.



Lemma contexts_close_page pid s :
  _contexts (snd (close_page pid s)) = _contexts s
  /\ _active_context_id (snd (close_page pid s)) = _active_context_id s.
Proof.
  rewrite close_page_run. destruct (Py.get pid (_pages s)); now split.
Qed.

Lemma close_loop pids s :
  for_each pids (fun pid => _ <- close_page pid ;; ret tt) s
  = (Ok tt, pages_closed pids s).
Proof.
  revert s. induction pids as [|pid rest IH]; intros s; [reflexivity|].
  cbn [for_each pages_closed]. unfold bind at 1 2.
  rewrite close_page_run at 1.
  rewrite close_page_run. 
  destruct (Py.get pid (_pages s)); cbn [ret snd]; apply IH.
Qed.

Lemma contexts_pages_closed pids s :
  _contexts (pages_closed pids s) = _contexts s
  /\ _active_context_id (pages_closed pids s) = _active_context_id s.
Proof.
  revert s. induction pids as [|pid rest IH]; intros s; [now split|].
  cbn [pages_closed]. destruct (IH (snd (close_page pid s))) as [-> ->].
  apply contexts_close_page.
Qed.















(* ===================================================================== *)
(** ** The registry: reachable states                                     *)
(* ===================================================================== *)

Lemma preserves_ret {A} (a : A) : preserves (ret a).
Proof. intros s H. exact H. Qed.

Lemma preserves_raise {A} e : preserves (@raise t A e).
Proof. intros s H. exact H. Qed.

Lemma preserves_out_of_fuel {A} : preserves (@out_of_fuel t A).
Proof. intros s H. exact H. Qed.

Lemma preserves_gets {A} (f : t -> A) : preserves (gets f).
Proof. intros s H. exact H. Qed.

Lemma preserves_bind {A B} (m : M t A) (k : A -> M t B) :
  preserves m -> (forall a, preserves (k a)) -> preserves (bind m k).
Proof.
  intros Hm Hk s H. unfold bind. specialize (Hm s H).
  destruct (m s) as [[a|e|] s1]; cbn [snd] in *; [now apply Hk|assumption..].
Qed.

Lemma preserves_try {A} (m : M t A) (h : exn -> M t A) :
  preserves m -> (forall e, preserves (h e)) -> preserves (try_except m h).
Proof.
  intros Hm Hh s H. unfold try_except. specialize (Hm s H).
  destruct (m s) as [[a|e|] s1]; cbn [snd] in *; [assumption| |assumption].
  now apply Hh.
Qed.

Lemma preserves_modify (f : t -> t) :
  (forall s, well_formed s -> well_formed (f s)) -> preserves (modify f).
Proof. intros Hf s H. now apply Hf. Qed.

Lemma preserves_when c (m : M t unit) : preserves m -> preserves (when c m).
Proof. intros Hm. destruct c; [assumption|apply preserves_ret]. Qed.

Lemma preserves_for_each {A} (xs : list A) (body : A -> M t unit) :
  (forall x, preserves (body x)) -> preserves (for_each xs body).
Proof.
  intros Hb. induction xs as [|x xs IH]; [apply preserves_ret|].
  cbn [for_each]. apply preserves_bind; [apply Hb|intros _; exact IH].
Qed.

Lemma well_formed_frame s s' :
  _contexts s' = _contexts s -> _pages s' = _pages s ->
  well_formed s -> well_formed s'.
Proof. unfold well_formed. now intros -> ->. Qed.

Lemma well_formed_set_contexts c ctx s :
  c <> "" -> well_formed s ->
  well_formed (set_contexts (Py.set c ctx (_contexts s)) s).
Proof.
  unfold well_formed. cbn [_contexts _pages set_contexts].
  intros Hc (H1 & H2 & H3 & H4). repeat split; try assumption.
  - now apply wf_set.
  - intros Hin. apply keys_set in Hin. destruct Hin as [Hin|Hin]; auto.
Qed.

Lemma well_formed_set_pages p page s :
  p <> "" -> well_formed s ->
  well_formed (set_pages (Py.set p page (_pages s)) s).
Proof.
  unfold well_formed. cbn [_contexts _pages set_pages].
  intros Hp (H1 & H2 & H3 & H4). repeat split; try assumption.
  - now apply wf_set.
  - intros Hin. apply keys_set in Hin. destruct Hin as [Hin|Hin]; auto.
Qed.

Lemma well_formed_remove_context c s :
  well_formed s -> well_formed (set_contexts (Py.remove c (_contexts s)) s).
Proof.
  unfold well_formed. cbn [_contexts _pages set_contexts].
  intros (H1 & H2 & H3 & H4). repeat split; try assumption.
  - now apply wf_remove.
  - intros Hin. apply keys_remove in Hin. tauto.
Qed.

Lemma well_formed_remove_page p s :
  well_formed s -> well_formed (set_pages (Py.remove p (_pages s)) s).
Proof.
  unfold well_formed. cbn [_contexts _pages set_pages].
  intros (H1 & H2 & H3 & H4). repeat split; try assumption.
  - now apply wf_remove.
  - intros Hin. apply keys_remove in Hin. tauto.
Qed.

Lemma well_formed_clear_contexts s :
  well_formed s -> well_formed (set_contexts [] s).
Proof.
  unfold well_formed. cbn [_contexts _pages set_contexts keys map In].
  intros (H1 & H2 & H3 & H4). repeat split; try assumption; try tauto.
  constructor.
Qed.

Lemma well_formed_clear_pages s :
  well_formed s -> well_formed (set_pages [] s).
Proof.
  unfold well_formed. cbn [_contexts _pages set_pages keys map In].
  intros (H1 & H2 & H3 & H4). repeat split; try assumption; try tauto.
  constructor.
Qed.

Lemma well_formed_init cfg : well_formed (init cfg).
Proof.
  unfold well_formed, init. cbn. repeat split; try constructor; tauto.
Qed.

Ltac frame_modify :=
  apply preserves_modify; intros ? ?;
  first
    [ eapply well_formed_frame; [reflexivity | reflexivity | assumption]
    | apply well_formed_set_contexts;
        [apply str_or_nonempty; discriminate | assumption]
    | apply well_formed_set_pages;
        [apply str_or_nonempty; discriminate | assumption]
    | apply well_formed_remove_context; assumption
    | apply well_formed_remove_page; assumption
    | apply well_formed_clear_contexts; assumption
    | apply well_formed_clear_pages; assumption ].

Ltac pres_step :=
  first
    [ apply preserves_ret
    | apply preserves_raise
    | apply preserves_out_of_fuel
    | apply preserves_gets
    | assumption
    | apply preserves_bind; [|intros ?]
    | apply preserves_try; [|intros ?]
    | apply preserves_when
    | apply preserves_for_each; intros ?
    | frame_modify
    | match goal with
      | |- preserves (if ?c then _ else _) => destruct c
      | |- preserves (match ?x with _ => _ end) => destruct x
      | |- preserves (let _ := _ in _) => cbv zeta
      end ].

Ltac pres := repeat pres_step.

Lemma preserves_driver :
  preserves fresh
  /\ (forall e, preserves (emit e)).
Proof.
  split; [intros s H|intros e s H];
    (eapply well_formed_frame; [reflexivity|reflexivity|exact H]).
Qed.

Lemma preserves_new_page c : preserves (new_page c).
Proof.
  destruct preserves_driver as [Hf He].
  unfold new_page. pres; auto.
Qed.

Lemma preserves_new_context b o : preserves (new_context b o).
Proof.
  destruct preserves_driver as [Hf He].
  unfold new_context. pres; auto.
Qed.

Lemma preserves_launch ty o : preserves (launch ty o).
Proof.
  destruct preserves_driver as [Hf He].
  unfold launch. pres; auto.
Qed.

Lemma preserves_async_playwright_start : preserves async_playwright_start.
Proof.
  destruct preserves_driver as [Hf He].
  unfold async_playwright_start. pres; auto.
Qed.

Lemma preserves_creation fuel :
  preserves (start_browser fuel)
  /\ (forall context_id context_options,
        preserves (create_context fuel context_id context_options))
  /\ (forall context_id page_id,
        preserves (create_page fuel context_id page_id)).
Proof.
  pose proof preserves_new_page as Hnp.
  pose proof preserves_new_context as Hnc.
  pose proof preserves_launch as Hl.
  pose proof preserves_async_playwright_start as Hps.
  destruct preserves_driver as [_ He].
  induction fuel as [|fuel (IHs & IHc & IHp)].
  - split; [|split]; intros; apply preserves_out_of_fuel.
  - split; [|split]; intros.
    + cbn [start_browser]. unfold playwright_stop. pres; auto.
    + cbn [create_context]. pres; auto.
    + cbn [create_page]. pres; auto.
Qed.

Lemma preserves_set_active_context c : preserves (set_active_context c).
Proof. unfold set_active_context. pres. Qed.

Lemma preserves_set_active_page p : preserves (set_active_page p).
Proof. unfold set_active_page. pres. Qed.

Lemma preserves_close_page p : preserves (close_page p).
Proof.
  destruct preserves_driver as [_ He].
  unfold close_page, page_close. pres; auto.
Qed.

Lemma preserves_close_context c : preserves (close_context c).
Proof.
  destruct preserves_driver as [_ He].
  pose proof preserves_close_page as Hcp.
  pose proof preserves_set_active_context as Hsc.
  unfold close_context, context_close. pres; auto.
Qed.

Lemma preserves_close_browser : preserves close_browser.
Proof.
  destruct preserves_driver as [_ He].
  unfold close_browser, browser_close, playwright_stop. pres; auto.
Qed.

Lemma preserves_run fuel o : preserves (run fuel o).
Proof.
  destruct (preserves_creation fuel) as (Hs & Hc & Hp).
  destruct o; cbn [run]; pres; auto using preserves_set_active_context,
    preserves_set_active_page, preserves_close_page, preserves_close_context,
    preserves_close_browser.
Qed.

(** Every state the public operations can produce has unique, non-empty
    context and page identifiers. *)
Theorem reachable_well_formed (cfg : ConfigLoader.t) (s : t) :
  reachable cfg s -> well_formed s.
Proof.
  induction 1 as [|s fuel o r s' Hreach IH Hrun Hr].
  - apply well_formed_init.
  - pose proof (preserves_run fuel o s IH) as H. now rewrite Hrun in H.
Qed.

Lemma reachable_well_formed_witness :
  reachable Scenario.cfg Scenario.after_startup
  /\ well_formed Scenario.after_startup.
Proof.
  assert (H : reachable Scenario.cfg Scenario.after_startup).
  { apply (reachable_step Scenario.cfg Scenario.fresh 3 StartBrowser (Ok tt)).
    - apply reachable_init.
    - vm_compute. reflexivity.
    - discriminate. }
  split; [exact H|].
  exact (reachable_well_formed Scenario.cfg Scenario.after_startup H).
Defined.


(** C4, as the code behaves.  After [start_browser()] and
    [create_context()], two public operations on a new manager, the active
    context is still [initial_default_context] while the active page is the
    initial page of the second context: the state is reachable and breaks
    the selection invariant.  It does so for every configuration. *)
Theorem selection_invariant_broken (cfg : ConfigLoader.t) :
  let s := snd (create_context 2 None None (snd (start_browser 3 (init cfg)))) in
  reachable cfg s
  /\ _active_context_id s = Some "initial_default_context"
  /\ _active_page_id s = Some "initial_page_for_default_ctx_2"
  /\ Py.get "initial_page_for_default_ctx_2" (_pages s)
     = Some (mkPage 5 (mkContext 4))
  /\ owner_id (mkPage 5 (mkContext 4)) s = Some "default_ctx_2"
  /\ ~ selection_consistent s.
Proof.
  cbn zeta.
  set (s1 := snd (start_browser 3 (init cfg))).
  set (s2 := snd (create_context 2 None None s1)).
  assert (Hfacts :
    _active_context_id s2 = Some "initial_default_context"
    /\ _active_page_id s2 = Some "initial_page_for_default_ctx_2"
    /\ Py.get "initial_page_for_default_ctx_2" (_pages s2)
       = Some (mkPage 5 (mkContext 4))
    /\ owner_id (mkPage 5 (mkContext 4)) s2 = Some "default_ctx_2").
  { unfold s2, s1. rewrite start_browser_down by reflexivity. cbn [snd].
    rewrite create_context_running with (b := launched_browser (init cfg))
      by reflexivity.
    cbn [snd]. repeat split; reflexivity. }
  destruct Hfacts as (Hc & Hp & Hg & Ho).
  split; [|repeat (split; [assumption|])].
  - apply reachable_step
      with (s := s1) (fuel := 2) (o := CreateContext None None)
           (r := fst (run 2 (CreateContext None None) s1)).
    + apply reachable_step
        with (s := init cfg) (fuel := 3) (o := StartBrowser) (r := Ok tt).
      * constructor.
      * cbn [run]. unfold s1. now rewrite start_browser_down by reflexivity.
      * discriminate.
    + cbn [run]. unfold s2, s1, bind.
      rewrite start_browser_down by reflexivity. cbn [snd].
      rewrite create_context_running with (b := launched_browser (init cfg))
        by reflexivity.
      reflexivity.
    + cbn [run]. unfold s1, bind.
      rewrite start_browser_down by reflexivity. cbn [snd].
      rewrite create_context_running with (b := launched_browser (init cfg))
        by reflexivity.
      discriminate.
  - intros Hcons. specialize (Hcons _ _ Hp Hg). congruence.
Qed.

(** The same defect on the closing side: [close_page] of the active page
    re-selects the first tracked page, whatever context owns it. *)
Lemma close_page_breaks_selection :
  let s0 := snd (set_active_context "default_ctx_2" Scenario.two_contexts) in
  let s := snd (close_page "initial_page_for_default_ctx_2" s0) in
  selection_consistent s0
  /\ _active_context_id s = Some "default_ctx_2"
  /\ _active_page_id s = Some "initial_page_for_initial_default_context"
  /\ ~ selection_consistent s.
Proof.
  cbn zeta. split; [|split; [reflexivity|split; [reflexivity|]]].
  - intros pid page Hp Hg. vm_compute in Hp. injection Hp as <-.
    vm_compute in Hg. injection Hg as <-. reflexivity.
  - intros Hcons.
    specialize (Hcons "initial_page_for_initial_default_context"
                  (mkPage 3 (mkContext 2)) eq_refl eq_refl).
    vm_compute in Hcons. discriminate.
Qed.

End RegistryFacts.

(* ===================================================================== *)
(** ** The dispatcher                                                     *)
(* ===================================================================== *)

Section DispatcherFacts.
Import Utils Routes Main.

Variable page_action : handler -> json -> json -> M globals json.

Lemma get_contains {V} (k : string) (v : V) (d : dict V) :
  Py.get k d = Some v -> contains k d = true.
Proof. unfold contains. now intros ->. Qed.

Lemma get_dget {V} (k : string) (v default : V) (d : dict V) :
  Py.get k d = Some v -> dget k d default = v.
Proof. unfold dget. now intros ->. Qed.


(** A well-formed envelope: the steps of [jsonrpc_handler] up to the call. *)
Lemma jsonrpc_handler_envelope fuel g members m :
  json_str_eqb (dget "jsonrpc" members JNull) "2.0" = true ->
  Py.get "method" members = Some (JStr m) ->
  jsonrpc_handler page_action fuel (Some (JObj members)) g
  = let rpc_id := dget "id" members JNull in
    let name := replace "."%char "_"%char m in
    match getattr name with
    | None =>
        (Ok (create_jsonrpc_error rpc_id JSON_RPC_METHOD_NOT_FOUND
               "Method not found" JNull), g)
    | Some api_function =>
        try_except
          (params <- get_params (JObj members) ;;
           call page_action fuel api_function params rpc_id)
          (fun e =>
             match e with
             | RPCException code message _ data =>
                 ret (create_jsonrpc_error rpc_id code message data)
             | PyError _ message =>
                 ret (create_jsonrpc_error rpc_id JSON_RPC_INTERNAL_ERROR
                        ("Server error: " ++ message) JNull)
             end) g
    end.
Proof.
  intros Htag Hmethod. unfold jsonrpc_handler.
  unfold py_get. unfold bind at 1. unfold ret at 1.
  rewrite Htag, (get_contains _ _ _ Hmethod), (get_dget _ _ JNull _ Hmethod).
  cbn [negb orb]. unfold api_function_name_of.
  unfold bind at 1. unfold ret at 1. cbn zeta.
  unfold hasattr, contains, getattr.
  destruct (Py.get (replace "."%char "_"%char m) namespace); reflexivity.
Qed.

(** C1, as the code behaves.  A body that parses to JSON but not to an
    object does not get an envelope: evaluating [request_data.get("id")]
    raises [AttributeError] before the [isinstance] test is reached, and
    the exception leaves [jsonrpc_handler].  This holds for an array, a
    string, a number, a boolean and [null] alike, and the globals are
    untouched. *)
Theorem non_object_body_escapes (fuel : nat) (g : globals) :
  (forall items,
     jsonrpc_handler page_action fuel (Some (JArr items)) g
     = (Raise (PyError "AttributeError"
                 "'list' object has no attribute 'get'"), g))
  /\ (forall s,
        jsonrpc_handler page_action fuel (Some (JStr s)) g
        = (Raise (PyError "AttributeError"
                    "'str' object has no attribute 'get'"), g))
  /\ (forall n,
        jsonrpc_handler page_action fuel (Some (JNum n)) g
        = (Raise (PyError "AttributeError"
                    "'int' object has no attribute 'get'"), g))
  /\ (forall b,
        jsonrpc_handler page_action fuel (Some (JBool b)) g
        = (Raise (PyError "AttributeError"
                    "'bool' object has no attribute 'get'"), g))
  /\ jsonrpc_handler page_action fuel (Some JNull) g
     = (Raise (PyError "AttributeError"
                 "'NoneType' object has no attribute 'get'"), g).
Proof. repeat split; intros; reflexivity. Qed.


(** C7, as the code behaves.  The method name is looked up with [hasattr]
    in the whole namespace of the routes module, so a name bound there to
    something that is not a registered handler is dispatched too.  The
    request [{"jsonrpc": "2.0", "method": "initialize.routes", "id": i}]
    calls [initialize_routes(params, rpc_id)]: the answer is an
    InternalError envelope, not MethodNotFound, and the module globals now
    hold the request's empty parameter object and its id in place of the
    browser manager and the configuration loader. *)
Theorem unregistered_name_dispatched (fuel : nat) (g : globals) (rpc_id : json) :
  getattr "initialize_routes" = Some InitializeRoutes
  /\ jsonrpc_handler page_action fuel
       (Some (JObj [("jsonrpc", JStr "2.0");
                    ("method", JStr "initialize.routes");
                    ("id", rpc_id)])) g
     = (Ok (create_jsonrpc_error rpc_id JSON_RPC_INTERNAL_ERROR
              "Server error: object NoneType can't be used in 'await' expression"
              JNull),
        mkGlobals (NotAManager (JObj [])) (NotALoader rpc_id)).
Proof. split; reflexivity. Qed.

(** Every name of the namespace that is not a registered handler gets an
    InternalError envelope rather than MethodNotFound. *)
Lemma non_handler_internal_error fuel g members m a :
  json_str_eqb (dget "jsonrpc" members JNull) "2.0" = true ->
  Py.get "method" members = Some (JStr m) ->
  getattr (replace "."%char "_"%char m) = Some a ->
  (forall h, a <> Registered h) ->
  is_dict_or_list (dget "params" members JNull) = true
  \/ dget "params" members JNull = JNull ->
  exists message g',
    jsonrpc_handler page_action fuel (Some (JObj members)) g
    = (Ok (create_jsonrpc_error (dget "id" members JNull)
             JSON_RPC_INTERNAL_ERROR ("Server error: " ++ message) JNull), g').
Proof.
  intros Htag Hmethod Hattr Hnot Hparams.
  rewrite (jsonrpc_handler_envelope fuel g members m Htag Hmethod).
  cbn zeta. rewrite Hattr.
  unfold try_except, get_params, py_get.
  unfold bind at 1. unfold bind at 1. unfold ret at 1.
  assert (Hcall : forall params,
    exists message g',
      match call page_action fuel a params (dget "id" members JNull) g with
      | (Raise e, s') =>
          match e with
          | RPCException code message _ data =>
              ret (create_jsonrpc_error (dget "id" members JNull) code
                     message data)
          | PyError _ message =>
              ret (create_jsonrpc_error (dget "id" members JNull)
                     JSON_RPC_INTERNAL_ERROR ("Server error: " ++ message)
                     JNull)
          end s'
      | r => r
      end
      = (Ok (create_jsonrpc_error (dget "id" members JNull)
               JSON_RPC_INTERNAL_ERROR ("Server error: " ++ message) JNull),
         g')).
  { intros params. destruct a as [h| | | |msg].
    - now destruct (Hnot h).
    - eexists. eexists. reflexivity.
    - unfold call, not_callable. eexists. eexists. reflexivity.
    - unfold call, not_callable. eexists. eexists. reflexivity.
    - eexists. eexists. reflexivity. }
  destruct Hparams as [Hp | Hp].
  - destruct (dget "params" members JNull) eqn:E; try discriminate;
      cbn [is_dict_or_list negb]; unfold ret at 1; apply Hcall.
  - rewrite Hp. unfold ret at 1. apply Hcall.
Qed.

Lemma close_context_untracked cid (m : BrowserManager.t) :
  Py.get cid (BrowserManager._contexts m) = None ->
  BrowserManager.close_context cid m = (Ok false, m).
Proof.
  intros Hnone. unfold BrowserManager.close_context.
  unfold bind at 1. unfold gets at 1. now rewrite Hnone.
Qed.

Lemma close_page_untracked pid (m : BrowserManager.t) :
  Py.get pid (BrowserManager._pages m) = None ->
  BrowserManager.close_page pid m = (Ok false, m).
Proof.
  intros Hnone. unfold BrowserManager.close_page.
  unfold bind at 1. unfold gets at 1. now rewrite Hnone.
Qed.

Lemma same_id (rpc_id : json) :
  match rpc_id with JNull => rpc_id | _ => rpc_id end = rpc_id.
Proof. now destruct rpc_id. Qed.

(** The decorated [puppeteer_close_context] on an identifier that is not
    tracked. *)
Lemma puppeteer_close_context_untracked fuel m l params cid rpc_id :
  Py.get "context_id" params = Some (JStr cid) ->
  cid <> "" ->
  Py.get cid (BrowserManager._contexts m) = None ->
  call page_action fuel (Registered h_close_context) (JObj params) rpc_id
    (mkGlobals (Manager m) l)
  = (Ok (create_jsonrpc_error rpc_id BROWSER_OPERATION_ERROR
           ("Failed to close context: Failed to close context ID '" ++ cid
            ++ "'. Context not found or already closed.") JNull),
     mkGlobals (Manager m) l).
Proof.
  intros Hid Hne Hnone. unfold call, api_method_handler, body.
  unfold puppeteer_close_context, py_get.
  rewrite (get_dget _ _ JNull _ Hid).
  unfold try_except at 1. unfold bind at 1. unfold bind at 1. unfold ret at 1.
  cbn [truthy]. apply String.eqb_neq in Hne. rewrite Hne. cbn [negb].
  unfold bind at 1. unfold gets at 1. cbn [_browser_manager manager_truthy negb].
  unfold try_except at 1. unfold bind at 1. unfold on_manager.
  cbn [_browser_manager _config_loader].
  rewrite (close_context_untracked cid m Hnone).
  unfold raise, ret. cbn [str_of_exn]. now rewrite same_id.
Qed.

(** C6, as the code has it.  Closing an identifier that is not tracked is
    a no-op for the registry: [close_context] and [close_page] return
    [False] and change nothing.  The RPC method [puppeteer.close_context]
    turns that [False] into an error envelope with code
    [BROWSER_OPERATION_ERROR] that carries the request id, and leaves the
    globals as they were.  The routes module has no [close_page] method. *)
Theorem close_unknown_context_is_error (fuel : nat) (m : BrowserManager.t)
  (l : loader_ref) (members params : dict json) (method cid : string) :
  json_str_eqb (dget "jsonrpc" members JNull) "2.0" = true ->
  Py.get "method" members = Some (JStr method) ->
  replace "."%char "_"%char method = "puppeteer_close_context" ->
  Py.get "params" members = Some (JObj params) ->
  Py.get "context_id" params = Some (JStr cid) ->
  cid <> "" ->
  Py.get cid (BrowserManager._contexts m) = None ->
  BrowserManager.close_context cid m = (Ok false, m)
  /\ jsonrpc_handler page_action fuel (Some (JObj members))
       (mkGlobals (Manager m) l)
     = (Ok (create_jsonrpc_error (dget "id" members JNull)
              BROWSER_OPERATION_ERROR
              ("Failed to close context: Failed to close context ID '" ++ cid
               ++ "'. Context not found or already closed.") JNull),
        mkGlobals (Manager m) l)
  /\ (forall pid,
        Py.get pid (BrowserManager._pages m) = None ->
        BrowserManager.close_page pid m = (Ok false, m))
  /\ hasattr "puppeteer_close_page" = false.
Proof.
  intros Htag Hmethod Hname Hparams Hid Hne Hnone.
  split; [now apply close_context_untracked|].
  split; [|split; [intros pid; apply close_page_untracked|reflexivity]].
  rewrite (jsonrpc_handler_envelope fuel _ members method Htag Hmethod).
  cbn zeta. rewrite Hname.
  change (getattr "puppeteer_close_context")
    with (Some (Registered h_close_context)).
  unfold try_except, get_params, py_get.
  unfold bind at 1. unfold bind at 1. unfold ret at 1.
  rewrite (get_dget _ _ JNull _ Hparams). cbn [is_dict_or_list negb].
  unfold ret at 1.
  now rewrite (puppeteer_close_context_untracked fuel m l params cid _
                 Hid Hne Hnone).
Qed.

End DispatcherFacts.




Lemma close_unknown_context_is_error_witness :
  Py.get "never_created" (BrowserManager._contexts Scenario.after_startup)
  = None
  /\ Main.jsonrpc_handler Scenario.page_action 0
       (Scenario.request "puppeteer.close_context"
          (JObj [("context_id", JStr "never_created")]) (JNum 7))
       Scenario.globals
     = (Ok (Utils.create_jsonrpc_error (JNum 7) Utils.BROWSER_OPERATION_ERROR
              "Failed to close context: Failed to close context ID 'never_created'. Context not found or already closed."
              JNull),
        Scenario.globals).
Proof.
  split; [reflexivity|].
  assert (Hne : "never_created" <> "") by discriminate.
  exact (proj1 (proj2
    (close_unknown_context_is_error Scenario.page_action 0
       Scenario.after_startup (Routes.Loader Scenario.cfg)
       [("jsonrpc", JStr "2.0"); ("method", JStr "puppeteer.close_context");
        ("params", JObj [("context_id", JStr "never_created")]);
        ("id", JNum 7)]
       [("context_id", JStr "never_created")]
       "puppeteer.close_context" "never_created"
       eq_refl eq_refl eq_refl eq_refl eq_refl Hne eq_refl))).
Defined.

(** C6, the claim on a concrete request.  Closing the context
    [never_created] through the RPC method answers with an error envelope,
    code -32000, not with a "not found" status result. *)
Lemma close_unknown_context_counterexample :
  Py.get "never_created" (BrowserManager._contexts Scenario.after_startup)
  = None
  /\ fst (Main.jsonrpc_handler Scenario.page_action 0
            (Scenario.request "puppeteer.close_context"
               (JObj [("context_id", JStr "never_created")]) (JNum 7))
            Scenario.globals)
     = Ok (JObj [("jsonrpc", JStr "2.0");
                 ("error",
                  JObj [("code", JNum (-32000));
                        ("message",
                         JStr "Failed to close context: Failed to close context ID 'never_created'. Context not found or already closed.")]);
                 ("id", JNum 7)]).
Proof. split; reflexivity. Qed.

(* ===================================================================== *)
(** ** Further properties of the registry                                 *)
(* ===================================================================== *)

Section RegistryMore.
Import BrowserManager Registry.

(** A cold start.  When the browser is not running, [start_browser]
    launches it once and creates the context [initial_default_context] with
    its initial page; both become the active selection, whatever was
    selected before. *)
Theorem start_browser_cold (fuel : nat) (s : t) :
  browser_running (browser s) = false ->
  let s' := snd (start_browser (3 + fuel) s) in
  let h := next_handle s in
  fst (start_browser (3 + fuel) s) = Ok tt
  /\ playwright s' = Some h
  /\ browser s' = Some (mkBrowser (S h) true)
  /\ Py.get "initial_default_context" (_contexts s')
     = Some (mkContext (S (S h)))
  /\ Py.get "initial_page_for_initial_default_context" (_pages s')
     = Some (mkPage (S (S (S h))) (mkContext (S (S h))))
  /\ _active_context_id s' = Some "initial_default_context"
  /\ _active_page_id s' = Some "initial_page_for_initial_default_context"
  /\ events s'
     = (events s
        ++ [ EvPlaywrightStart h;
             EvLaunch (launch_type (config_loader s))
               (launch_options_of (config_loader s)) (S h);
             EvNewContext (S h) (merged_options (config_loader s) None)
               (S (S h));
             EvNewPage (S (S h)) (S (S (S h))) ])%list.
Proof.
  intros Hdown. cbn zeta. change (3 + fuel) with (S (S (S fuel))).
  rewrite start_browser_down by assumption. cbn [fst snd].
  split; [reflexivity|]. split; [reflexivity|]. split; [reflexivity|].
  split; [unfold started; rewrite contexts_context_created;
          apply get_set_same|].
  split; [unfold started; rewrite pages_context_created;
          apply get_set_same|].
  split; [unfold started; rewrite active_context_context_created;
          unfold activates_context; cbn [opt_str_eqb];
          now rewrite String.eqb_refl, orb_true_r|].
  split; [unfold started; apply active_page_context_created|].
  apply events_started.
Qed.

Lemma start_browser_cold_witness :
  browser_running (browser Scenario.fresh) = false
  /\ fst (start_browser 3 Scenario.fresh) = Ok tt
  /\ playwright (snd (start_browser 3 Scenario.fresh)) = Some 0.
Proof.
  split; [reflexivity|].
  pose proof (start_browser_cold 0 Scenario.fresh eq_refl) as H.
  exact (conj (proj1 H) (proj1 (proj2 H))).
Defined.

(** The engine launched by a cold start is chromium unless the configured
    [browser_type] is exactly ["firefox"] or ["webkit"]: any other value,
    a misspelt or non-string one included, falls back to chromium. *)
Theorem launch_falls_back_to_chromium (fuel : nat) (s : t) :
  browser_running (browser s) = false ->
  let browser_type :=
    ConfigLoader.get (config_loader s) "browser_type" (JStr "chromium") in
  In (EvLaunch (if json_str_eqb browser_type "firefox" then "firefox"
                else if json_str_eqb browser_type "webkit" then "webkit"
                else "chromium")
        (launch_options_of (config_loader s)) (S (next_handle s)))
     (events (snd (start_browser (3 + fuel) s))).
Proof.
  intros Hdown. cbn zeta. change (3 + fuel) with (S (S (S fuel))).
  rewrite start_browser_down by assumption. cbn [snd].
  rewrite events_started. apply in_or_app. right. right. left.
  f_equal. unfold launch_type.
  change (dget "browser_type"
            (ConfigLoader.get_browser_config (config_loader s))
            (JStr "chromium"))
    with (ConfigLoader.get (config_loader s) "browser_type" (JStr "chromium")).
  destruct (ConfigLoader.get (config_loader s) "browser_type" (JStr "chromium"))
    as [| | |bt| |]; try reflexivity.
  cbn [json_str_eqb].
  destruct (String.eqb_spec bt "chromium") as [->|]; reflexivity.
Qed.

Lemma launch_falls_back_to_chromium_witness :
  browser_running (browser (init (ConfigLoader.mk [("browser_type", JStr "edge")])))
  = false
  /\ In (EvLaunch "chromium" [("headless", JBool true); ("slow_mo", JNum 0)] 1)
       (events (snd (start_browser 3
                       (init (ConfigLoader.mk [("browser_type", JStr "edge")]))))).
Proof.
  split; [reflexivity|].
  exact (launch_falls_back_to_chromium 0
           (init (ConfigLoader.mk [("browser_type", JStr "edge")])) eq_refl).
Defined.

Lemma get_set_absent_key {V} (k k' : string) (v v' : V) (d : dict V) :
  contains k d = false -> Py.get k' d = Some v' -> Py.get k' (Py.set k v d) = Some v'.
Proof.
  intros Hno Hget. rewrite get_set_other; [assumption|].
  intros ->. unfold contains in Hno. now rewrite Hget in Hno.
Qed.

Lemma merged_options_keeps cfg o k v :
  Py.get k o = Some v -> Py.get k (merged_options cfg (Some o)) = Some v.
Proof.
  intros Hget. unfold merged_options. cbn zeta.
  set (ua := dget "user_agent" (ConfigLoader.get_browser_config cfg) JNull).
  set (vp := dget "viewport_size" (ConfigLoader.get_browser_config cfg) JNull).
  assert (H1 : Py.get k (if truthy ua && negb (contains "user_agent" o)
                         then Py.set "user_agent" ua o else o) = Some v).
  { destruct (truthy ua); cbn [andb]; [|assumption].
    destruct (contains "user_agent" o) eqn:E; cbn [negb]; [assumption|].
    now apply get_set_absent_key. }
  destruct (truthy vp); cbn [andb]; [|assumption].
  destruct (contains "viewport" _) eqn:E; cbn [negb]; [assumption|].
  now apply get_set_absent_key.
Qed.

Lemma merged_user_agent cfg (o0 : dict json) :
  Py.get "user_agent" (merged_options cfg (Some o0))
  = match Py.get "user_agent" o0 with
    | Some v => Some v
    | None =>
        if truthy (ConfigLoader.get cfg "user_agent" JNull)
        then Some (ConfigLoader.get cfg "user_agent" JNull) else None
    end.
Proof.
  unfold merged_options. cbn zeta.
  change (dget "user_agent" (ConfigLoader.get_browser_config cfg) JNull)
    with (ConfigLoader.get cfg "user_agent" JNull).
  set (ua := ConfigLoader.get cfg "user_agent" JNull).
  set (vp := dget "viewport_size" (ConfigLoader.get_browser_config cfg) JNull).
  set (o1 := if truthy ua && negb (contains "user_agent" o0)
             then Py.set "user_agent" ua o0 else o0).
  assert (H1 : Py.get "user_agent" o1
               = match Py.get "user_agent" o0 with
                 | Some v => Some v
                 | None => if truthy ua then Some ua else None
                 end).
  { unfold o1, contains. destruct (Py.get "user_agent" o0) eqn:E.
    - rewrite andb_false_r. exact E.
    - destruct (truthy ua); cbn [andb negb]; [apply get_set_same|exact E]. }
  destruct (truthy vp && negb (contains "viewport" o1))%bool; [|exact H1].
  rewrite get_set_other by discriminate. exact H1.
Qed.

Lemma merged_options_user_agent cfg o :
  Py.get "user_agent" (merged_options cfg o)
  = match o with
    | Some o' =>
        match Py.get "user_agent" o' with
        | Some v => Some v
        | None =>
            if truthy (ConfigLoader.get cfg "user_agent" JNull)
            then Some (ConfigLoader.get cfg "user_agent" JNull) else None
        end
    | None =>
        if truthy (ConfigLoader.get cfg "user_agent" JNull)
        then Some (ConfigLoader.get cfg "user_agent" JNull) else None
    end.
Proof.
  destruct o as [o'|]; [apply merged_user_agent|].
  change (merged_options cfg None) with (merged_options cfg (Some [])).
  now rewrite merged_user_agent.
Qed.

(** The options [create_context] hands to the driver keep every key the
    caller supplied, with the caller's value.  The configured [user_agent]
    is added only when the caller gave none and the configured value is
    not empty. *)
Theorem create_context_merges_options (fuel : nat) (b : Browser) (s : t)
  (context_id : option string) (o : dict json) :
  browser s = Some b ->
  is_connected b = true ->
  exists options,
    events (snd (create_context (2 + fuel) context_id (Some o) s))
    = (events s
       ++ [ EvNewContext (browser_handle b) options (next_handle s);
            EvNewPage (next_handle s) (S (next_handle s)) ])%list
    /\ (forall k v, Py.get k o = Some v -> Py.get k options = Some v)
    /\ (Py.get "user_agent" o = None ->
        Py.get "user_agent" options
        = if truthy (ConfigLoader.get (config_loader s) "user_agent" JNull)
          then Some (ConfigLoader.get (config_loader s) "user_agent" JNull)
          else None).
Proof.
  intros Hb Hconn. change (2 + fuel) with (S (S fuel)).
  rewrite create_context_running with (b := b) by assumption. cbn [snd].
  exists (merged_options (config_loader s) (Some o)).
  split; [apply events_context_created|]. split.
  - intros k v. apply merged_options_keeps.
  - intros Hnone. rewrite merged_options_user_agent. now rewrite Hnone.
Qed.

Lemma create_context_merges_options_witness :
  browser Scenario.after_startup = Some (mkBrowser 1 true)
  /\ exists options,
       events (snd (create_context 2 None
                      (Some [("user_agent", JStr "TestAgent/1.0")])
                      Scenario.after_startup))
       = (events Scenario.after_startup
          ++ [EvNewContext 1 options 4; EvNewPage 4 5])%list
       /\ Py.get "user_agent" options = Some (JStr "TestAgent/1.0").
Proof.
  split; [reflexivity|].
  destruct (create_context_merges_options 0 (mkBrowser 1 true)
              Scenario.after_startup None
              [("user_agent", JStr "TestAgent/1.0")] eq_refl eq_refl)
    as (options & He & Hkeep & _).
  exists options. split; [exact He|].
  exact (Hkeep "user_agent" (JStr "TestAgent/1.0") eq_refl).
Defined.

(** Identifiers and counters.  With the browser running,
    [create_context] names the context after its argument, and after the
    counter when the argument is omitted or the empty string; the counter
    goes up by one on every call, also when the caller named the context,
    and the page counter goes up by one for the initial page.  The context
    and its initial page can be looked up under those identifiers. *)
Theorem create_context_identifiers (fuel : nat) (b : Browser) (s : t)
  (context_id : option string) (context_options : option (dict json)) :
  browser s = Some b ->
  is_connected b = true ->
  let c_id :=
    match context_id with
    | Some (String a rest) => String a rest
    | _ => "default_ctx_" ++ str_of_nat (_context_counter s + 1)
    end in
  let s' := snd (create_context (2 + fuel) context_id context_options s) in
  fst (create_context (2 + fuel) context_id context_options s) = Ok c_id
  /\ _context_counter s' = _context_counter s + 1
  /\ _page_counter s' = _page_counter s + 1
  /\ get_context_by_id c_id s' = Some (mkContext (next_handle s))
  /\ get_page_by_id ("initial_page_for_" ++ c_id) s'
     = Some (mkPage (S (next_handle s)) (mkContext (next_handle s)))
  /\ next_handle s' = 2 + next_handle s.
Proof.
  intros Hb Hconn. cbn zeta. change (2 + fuel) with (S (S fuel)).
  rewrite create_context_running with (b := b) by assumption. cbn [fst snd].
  assert (Hid : new_context_id context_id s
                = match context_id with
                  | Some (String a rest) => String a rest
                  | _ => "default_ctx_" ++ str_of_nat (_context_counter s + 1)
                  end).
  { unfold new_context_id. destruct context_id as [[|a rest]|]; reflexivity. }
  rewrite <- Hid.
  split; [reflexivity|]. split; [reflexivity|]. split; [reflexivity|].
  split; [unfold get_context_by_id; rewrite contexts_context_created;
          apply get_set_same|].
  split; [unfold get_page_by_id; rewrite pages_context_created;
          apply get_set_same|reflexivity].
Qed.

Lemma create_context_identifiers_witness :
  browser Scenario.after_startup = Some (mkBrowser 1 true)
  /\ fst (create_context 2 (Some "") None Scenario.after_startup)
     = Ok "default_ctx_2".
Proof.
  split; [reflexivity|].
  exact (proj1 (create_context_identifiers 0 (mkBrowser 1 true)
                  Scenario.after_startup (Some "") None eq_refl eq_refl)).
Defined.

(** [create_page] for a context identifier that is not tracked, while some
    context is active, raises [ValueError] naming the identifier and leaves
    the manager, the driver log included, exactly as it was: no page is
    created and no counter moves. *)
Theorem create_page_unknown_context (fuel : nat) (s : t) (c : string)
  (page_id : option string) :
  c <> "" ->
  Py.get c (_contexts s) = None ->
  str_truthy (_active_context_id s) = true ->
  create_page (S fuel) (Some c) page_id s
  = (Raise (PyError "ValueError" ("Context ID '" ++ c ++ "' not found.")), s).
Proof.
  intros Hc Hnone Hactive. rewrite create_page_split.
  unfold resolve_target. cbn zeta.
  rewrite (str_truthy_Some c Hc). cbv beta iota.
  rewrite (str_truthy_Some c Hc). unfold opt_in, contains.
  rewrite Hnone, Hactive. reflexivity.
Qed.

Lemma create_page_unknown_context_witness :
  Py.get "nope" (_contexts Scenario.after_startup) = None
  /\ create_page 1 (Some "nope") None Scenario.after_startup
     = (Raise (PyError "ValueError" "Context ID 'nope' not found."),
        Scenario.after_startup).
Proof.
  split; [reflexivity|].
  assert (Hne : "nope" <> "") by discriminate.
  exact (create_page_unknown_context 0 Scenario.after_startup "nope" None
           Hne eq_refl eq_refl).
Defined.

(** [create_page] in a tracked context.  The page is registered under the
    identifier that is returned and can be looked up at once; every other
    page identifier resolves as before; the new page lives in the context
    asked for.  It becomes the active page only when no page was active
    or its identifier starts with [initial_page_for_]; otherwise the active
    page stays. *)
Theorem create_page_registers (fuel : nat) (s : t) (c : string)
  (ctx : BrowserContext) (page_id : option string) :
  c <> "" ->
  Py.get c (_contexts s) = Some ctx ->
  let p_id := new_page_id page_id s in
  let s' := snd (create_page (S fuel) (Some c) page_id s) in
  fst (create_page (S fuel) (Some c) page_id s) = Ok p_id
  /\ get_page_by_id p_id s' = Some (mkPage (next_handle s) ctx)
  /\ (forall k, k <> p_id -> get_page_by_id k s' = get_page_by_id k s)
  /\ _contexts s' = _contexts s
  /\ _active_context_id s' = _active_context_id s
  /\ _active_page_id s'
     = (if activates_page page_id s then Some p_id else _active_page_id s)
  /\ (str_truthy (_active_page_id s) = true ->
      (forall p, page_id = Some p -> startswith p "initial_page_for_" = false) ->
      _active_page_id s' = _active_page_id s).
Proof.
  intros Hc Hget. cbn zeta.
  rewrite create_page_tracked with (ctx := ctx) by assumption.
  cbn [fst snd]. unfold get_page_by_id, page_created.
  cbn [_pages _contexts _active_context_id _active_page_id].
  split; [reflexivity|]. split; [apply get_set_same|].
  split; [intros k Hk; apply get_set_other; congruence|].
  split; [reflexivity|]. split; [reflexivity|]. split; [reflexivity|].
  intros Hact Hinit. unfold activates_page. rewrite Hact. cbn [negb orb].
  destruct page_id as [p|]; [|now rewrite andb_false_r].
  now rewrite (Hinit p eq_refl), andb_false_r.
Qed.

Lemma create_page_registers_witness :
  Py.get "initial_default_context" (_contexts Scenario.after_startup)
  = Some (mkContext 2)
  /\ fst (create_page 1 (Some "initial_default_context") None
            Scenario.after_startup)
     = Ok "default_page_2"
  /\ get_page_by_id "default_page_2"
       (snd (create_page 1 (Some "initial_default_context") None
               Scenario.after_startup))
     = Some (mkPage 4 (mkContext 2)).
Proof.
  split; [reflexivity|].
  assert (Hne : "initial_default_context" <> "") by discriminate.
  pose proof (create_page_registers 0 Scenario.after_startup
                "initial_default_context" (mkContext 2) None Hne eq_refl) as H.
  exact (conj (proj1 H) (proj1 (proj2 H))).
Defined.

Lemma get_active_page_none_iff (s : t) :
  get_active_page s = None <-> _pages s = [].
Proof.
  unfold get_active_page, opt_in, contains, first_value, values.
  destruct (_active_page_id s) as [p|]; cbn [str_truthy andb].
  - destruct (negb (p =? "")); cbn [andb].
    + destruct (Py.get p (_pages s)) eqn:E.
      * split; [discriminate|]. intros Hnil. rewrite Hnil in E. discriminate.
      * destruct (_pages s) as [|[k v] rest]; cbn; split; congruence.
    + destruct (_pages s) as [|[k v] rest]; cbn; split; congruence.
  - destruct (_pages s) as [|[k v] rest]; cbn; split; congruence.
Qed.

Lemma get_active_page_tracked_page (s : t) (page : Page) :
  get_active_page s = Some page -> In page (values (_pages s)).
Proof.
  unfold get_active_page, opt_in, contains, first_value.
  destruct (_active_page_id s) as [p|]; cbn [str_truthy andb].
  - destruct (negb (p =? "")); cbn [andb].
    + destruct (Py.get p (_pages s)) eqn:E.
      * intros [= ->]. apply get_Some_In in E.
        unfold values. change page with (snd (p, page)). now apply in_map.
      * destruct (values (_pages s)); cbn; [discriminate|].
        intros [= ->]. now left.
    + destruct (values (_pages s)); cbn; [discriminate|].
      intros [= ->]. now left.
  - destruct (values (_pages s)); cbn; [discriminate|].
    intros [= ->]. now left.
Qed.



(** *** Selection *)

Lemma opt_str_eqb_true o s : opt_str_eqb o s = true -> o = Some s.
Proof.
  destruct o as [s'|]; cbn; [|discriminate].
  intros H. apply String.eqb_eq in H. now subst.
Qed.

Lemma set_active_context_tracked c ctx s :
  Py.get c (_contexts s) = Some ctx ->
  set_active_context c s
  = (Ok true,
     set_active_page_id (option_map fst (first_page_of ctx (_pages s)))
       (set_active_context_id (Some c) s)).
Proof.
  intros Hget. unfold set_active_context. run_all. rewrite Hget.
  destruct (first_page_of ctx (_pages s)) as [[pid page]|]; reflexivity.
Qed.

Lemma set_active_context_untracked c s :
  Py.get c (_contexts s) = None -> set_active_context c s = (Ok false, s).
Proof.
  intros Hget. unfold set_active_context. run_all. now rewrite Hget.
Qed.

Lemma set_active_page_untracked p s :
  Py.get p (_pages s) = None -> set_active_page p s = (Ok false, s).
Proof.
  intros Hget. unfold set_active_page. run_all. now rewrite Hget.
Qed.

(** Selecting an identifier that is not tracked returns [False] and
    changes nothing, for contexts and for pages alike. *)
Theorem select_untracked (s : t) (c p : string) :
  Py.get c (_contexts s) = None ->
  Py.get p (_pages s) = None ->
  set_active_context c s = (Ok false, s)
  /\ set_active_page p s = (Ok false, s).
Proof.
  intros Hc Hp. split;
    [now apply set_active_context_untracked|now apply set_active_page_untracked].
Qed.

Lemma select_untracked_witness :
  Py.get "ghost" (_contexts Scenario.after_startup) = None
  /\ Py.get "ghost" (_pages Scenario.after_startup) = None
  /\ set_active_context "ghost" Scenario.after_startup
     = (Ok false, Scenario.after_startup)
  /\ set_active_page "ghost" Scenario.after_startup
     = (Ok false, Scenario.after_startup).
Proof.
  split; [reflexivity|]. split; [reflexivity|].
  exact (select_untracked Scenario.after_startup "ghost" "ghost"
           eq_refl eq_refl).
Defined.

Lemma set_active_page_tracked pid page s :
  Py.get pid (_pages s) = Some page ->
  set_active_page pid s
  = (Ok true,
     set_active_context_id
       (match owner_id page s with
        | Some c => Some c
        | None => _active_context_id s
        end)
       (set_active_page_id (Some pid) s)).
Proof.
  intros Hget. unfold set_active_page, owner_id. run_all. rewrite Hget.
  destruct (find _ (_contexts s)) as [[c ctx]|]; cbn [option_map fst];
    run_all; [|reflexivity].
  destruct (opt_str_eqb (_active_context_id s) c) eqn:E; cbn [negb];
    [|reflexivity].
  apply opt_str_eqb_true in E. now rewrite <- E.
Qed.

(** [set_active_page] on a tracked page makes it the active page and makes
    the context that owns it the active context, so the selection is
    consistent afterwards.  A page whose context is no longer tracked is
    selected too, and the active context is then left alone.  Nothing else
    changes and the driver is not called. *)
Theorem set_active_page_selects (s : t) (pid : string) (page : Page) :
  Py.get pid (_pages s) = Some page ->
  let s' := snd (set_active_page pid s) in
  fst (set_active_page pid s) = Ok true
  /\ _active_page_id s' = Some pid
  /\ _active_context_id s'
     = match owner_id page s with
       | Some c => Some c
       | None => _active_context_id s
       end
  /\ _pages s' = _pages s
  /\ _contexts s' = _contexts s
  /\ events s' = events s
  /\ (owner_id page s <> None -> selection_consistent s').
Proof.
  intros Hget. cbn zeta. rewrite (set_active_page_tracked pid page s Hget).
  cbn [fst snd]. repeat (split; [reflexivity|]).
  intros Hown pid' page' Hp Hg. cbn in Hp, Hg. injection Hp as <-.
  assert (page' = page) by congruence. subst page'.
  unfold owner_id in *. cbn [_contexts set_active_context_id set_active_page_id
                             _active_context_id].
  destruct (option_map fst _); [reflexivity|contradiction].
Qed.

Lemma set_active_page_selects_witness :
  Py.get "initial_page_for_initial_default_context" (_pages Scenario.two_contexts)
  = Some (mkPage 3 (mkContext 2))
  /\ _active_page_id
       (snd (set_active_page "initial_page_for_initial_default_context"
               Scenario.two_contexts))
     = Some "initial_page_for_initial_default_context".
Proof.
  split; [reflexivity|].
  exact (proj1 (proj2
    (set_active_page_selects Scenario.two_contexts
       "initial_page_for_initial_default_context" (mkPage 3 (mkContext 2))
       eq_refl))).
Defined.

(** *** Closing *)

(** [close_page] on a tracked page returns [True], asks the driver to
    close that page and removes it; the other pages resolve as before.
    If it was the active page, the first page left in the registry
    becomes active, or none when the registry is empty; otherwise the
    active page stays.  A second [close_page] with the same identifier
    returns [False] and changes nothing. *)
Theorem close_page_removes (s : t) (pid : string) (page : Page) :
  Py.get pid (_pages s) = Some page ->
  let s' := snd (close_page pid s) in
  fst (close_page pid s) = Ok true
  /\ get_page_by_id pid s' = None
  /\ (forall k, k <> pid -> get_page_by_id k s' = get_page_by_id k s)
  /\ events s' = (events s ++ [EvPageClose (page_handle page)])%list
  /\ _active_page_id s'
     = (if opt_str_eqb (_active_page_id s) pid
        then first_key (Py.remove pid (_pages s))
        else _active_page_id s)
  /\ _contexts s' = _contexts s
  /\ _active_context_id s' = _active_context_id s
  /\ close_page pid s' = (Ok false, s').
Proof.
  intros Hget. cbn zeta. rewrite close_page_run, Hget. cbn [fst snd].
  unfold get_page_by_id, page_closed. cbn [_pages events _active_page_id
                                           _contexts _active_context_id].
  split; [reflexivity|]. split; [apply get_remove_same|].
  split; [intros k Hk; apply get_remove_other; congruence|].
  repeat (split; [reflexivity|]).
  rewrite close_page_run. cbn [_pages]. now rewrite get_remove_same.
Qed.

Lemma close_page_removes_witness :
  Py.get "initial_page_for_default_ctx_2" (_pages Scenario.two_contexts)
  = Some (mkPage 5 (mkContext 4))
  /\ fst (close_page "initial_page_for_default_ctx_2" Scenario.two_contexts)
     = Ok true
  /\ get_page_by_id "initial_page_for_default_ctx_2"
       (snd (close_page "initial_page_for_default_ctx_2" Scenario.two_contexts))
     = None.
Proof.
  split; [reflexivity|].
  pose proof (close_page_removes Scenario.two_contexts
                "initial_page_for_default_ctx_2" (mkPage 5 (mkContext 4))
                eq_refl) as H.
  exact (conj (proj1 H) (proj1 (proj2 H))).
Defined.

Lemma close_browser_run s : close_browser s = (Ok tt, browser_closed s).
Proof.
  destruct s as [cfg pw br ctxs pgs ac ap cc pc nh ev].
  unfold close_browser, browser_closed, shutdown_events. run_all.
  destruct br as [[bh [|]]|]; cbn [is_connected browser_handle]; run_all;
    destruct pw as [h|]; run_all;
    cbn [app]; rewrite ?app_nil_r, <- ?app_assoc; reflexivity.
Qed.

(** [close_browser] always returns normally and leaves no context, no
    page and no selection; the browser is not running afterwards and the
    Playwright handle is dropped.  The driver is asked to close the browser
    only if it was connected, and to stop Playwright only if it had been
    started.  Calling it again changes nothing. *)
Theorem close_browser_clears (s : t) :
  let s' := snd (close_browser s) in
  fst (close_browser s) = Ok tt
  /\ _contexts s' = []
  /\ _pages s' = []
  /\ _active_context_id s' = None
  /\ _active_page_id s' = None
  /\ playwright s' = None
  /\ browser_running (browser s') = false
  /\ events s'
     = (events s
        ++ match browser s with
           | Some b => if is_connected b then [EvBrowserClose (browser_handle b)]
                       else []
           | None => []
           end
        ++ match playwright s with
           | Some h => [EvPlaywrightStop h]
           | None => []
           end)%list
  /\ close_browser s' = (Ok tt, s').
Proof.
  cbn zeta. rewrite close_browser_run. cbn [fst snd].
  repeat (split; [reflexivity|]).
  split; [|split; [reflexivity|]].
  - unfold browser_closed. cbn [browser].
    destruct (browser s) as [[bh [|]]|]; reflexivity.
  - rewrite close_browser_run. f_equal.
    unfold browser_closed, shutdown_events.
    cbn [config_loader playwright browser _context_counter _page_counter
         next_handle events].
    destruct (browser s) as [[bh [|]]|]; cbn [is_connected app];
      now rewrite app_nil_r.
Qed.

Lemma close_context_tracked c ctx s :
  Py.get c (_contexts s) = Some ctx ->
  close_context c s = (Ok true, context_closed c ctx s).
Proof.
  intros Hget. unfold close_context, context_closed.
  unfold bind at 1. unfold gets at 1. rewrite Hget.
  unfold bind at 1. unfold modify at 1.
  unfold bind at 1. unfold gets at 1.
  unfold bind at 1. cbn [_pages set_contexts]. rewrite close_loop.
  cbn zeta. set (s2 := pages_closed _ _).
  assert (Hc2 : _contexts s2 = Py.remove c (_contexts s)).
  { unfold s2. now rewrite (proj1 (contexts_pages_closed _ _)). }
  assert (Ha2 : _active_context_id s2 = _active_context_id s).
  { unfold s2. now rewrite (proj2 (contexts_pages_closed _ _)). }
  run_all. rewrite Ha2.
  destruct (opt_str_eqb (_active_context_id s) c); [|reflexivity].
  change (_contexts (set_events (events s2
                                 ++ [EvContextClose (context_handle ctx)])%list
                       s2))
    with (_contexts s2).
  rewrite Hc2. unfold first_key, keys.
  destruct (Py.remove c (_contexts s)) as [|[c' ctx'] rest] eqn:Hrem;
    cbn [map hd_error fst]; [reflexivity|].
  rewrite set_active_context_tracked with (ctx := ctx').
  - reflexivity.
  - change (Py.get c' (_contexts s2) = Some ctx').
    rewrite Hc2. cbn [Py.get]. now rewrite String.eqb_refl.
Qed.


Lemma pages_context_closed c ctx s :
  _pages (context_closed c ctx s)
  = _pages (pages_closed (pages_of ctx (_pages s))
              (set_contexts (Py.remove c (_contexts s)) s)).
Proof.
  unfold context_closed. cbn zeta.
  destruct (opt_str_eqb (_active_context_id s) c); [|reflexivity].
  destruct (Py.remove c (_contexts s)) as [|[c' ctx'] rest]; reflexivity.
Qed.

Lemma contexts_context_closed c ctx s :
  _contexts (context_closed c ctx s) = Py.remove c (_contexts s).
Proof.
  unfold context_closed. cbn zeta.
  pose proof (proj1 (contexts_pages_closed (pages_of ctx (_pages s))
                       (set_contexts (Py.remove c (_contexts s)) s))) as H.
  cbn [_contexts set_contexts] in H.
  destruct (opt_str_eqb (_active_context_id s) c); [|exact H].
  destruct (Py.remove c (_contexts s)) as [|[c' ctx'] rest]; exact H.
Qed.



(** *** The selection never dangles *)

Lemma tracked_page_created ctx page_id s :
  selection_tracked s -> selection_tracked (page_created ctx page_id s).
Proof.
  intros [Hc Hp]. unfold selection_tracked, page_created.
  cbn [_active_context_id _contexts _active_page_id _pages]. split.
  - exact Hc.
  - intros p Hact. apply keys_set.
    destruct (activates_page page_id s); [left; congruence|right; auto].
Qed.

Lemma tracked_context_created b context_id context_options s :
  selection_tracked s ->
  selection_tracked (context_created b context_id context_options s).
Proof.
  intros [Hc Hp]. unfold context_created. cbn zeta.
  apply tracked_page_created. unfold selection_tracked.
  cbn [_active_context_id _contexts _active_page_id _pages]. split.
  - intros c Hact. apply keys_set.
    destruct (activates_context context_id s); [left; congruence|right; auto].
  - exact Hp.
Qed.

Lemma tracked_started s : selection_tracked s -> selection_tracked (started s).
Proof.
  intros H. unfold started. apply tracked_context_created. exact H.
Qed.

Lemma tracked_create_context fuel context_id context_options s :
  selection_tracked s ->
  selection_tracked
    (snd (create_context (4 + fuel) context_id context_options s)).
Proof.
  intros H. change (4 + fuel) with (S (S (S (S fuel)))).
  destruct (browser_running (browser s)) eqn:Hrun.
  - destruct (running_browser s Hrun) as (b & Hb & Hconn).
    rewrite create_context_running with (b := b) by assumption.
    now apply tracked_context_created.
  - rewrite create_context_down by assumption.
    now apply tracked_context_created, tracked_started.
Qed.

Lemma tracked_create_page fuel context_id page_id s :
  selection_tracked s ->
  selection_tracked (snd (create_page (5 + fuel) context_id page_id s)).
Proof.
  intros H. change (5 + fuel) with (S (4 + fuel)).
  rewrite create_page_split. unfold resolve_target. cbn zeta.
  destruct (negb _ || negb _)%bool.
  - destruct (negb (str_truthy (_active_context_id s))); [|exact H].
    pose proof (tracked_create_context fuel None None s H) as H1.
    destruct (create_context (4 + fuel) None None s) as [[c| |] s1];
      cbn [snd] in *; try exact H1.
    destruct (Py.get c (_contexts s1)); cbn [snd]; [|exact H1].
    now apply tracked_page_created.
  - destruct (Py.get _ (_contexts s)); cbn [snd]; [|exact H].
    now apply tracked_page_created.
Qed.

Lemma first_key_In {V} (d : dict V) k : first_key d = Some k -> In k (keys d).
Proof.
  unfold first_key. destruct (keys d); cbn; [discriminate|].
  intros [= ->]. now left.
Qed.

Lemma tracked_page_part_close_page pid s :
  (forall p, _active_page_id s = Some p -> In p (keys (_pages s))) ->
  forall p, _active_page_id (snd (close_page pid s)) = Some p ->
            In p (keys (_pages (snd (close_page pid s)))).
Proof.
  intros Hp p. rewrite close_page_run.
  destruct (Py.get pid (_pages s)) as [page|]; cbn [snd]; [|apply Hp].
  unfold page_closed. cbn [_active_page_id _pages].
  destruct (opt_str_eqb (_active_page_id s) pid) eqn:E.
  - apply first_key_In.
  - intros Hact. apply keys_remove. split; [|now apply Hp].
    intros ->. rewrite Hact in E. cbn in E.
    now rewrite String.eqb_refl in E.
Qed.

Lemma tracked_page_part_pages_closed pids s :
  (forall p, _active_page_id s = Some p -> In p (keys (_pages s))) ->
  forall p, _active_page_id (pages_closed pids s) = Some p ->
            In p (keys (_pages (pages_closed pids s))).
Proof.
  revert s. induction pids as [|pid rest IH]; intros s Hp; [exact Hp|].
  cbn [pages_closed]. apply IH. now apply tracked_page_part_close_page.
Qed.

Lemma tracked_context_closed c ctx s :
  selection_tracked s -> selection_tracked (context_closed c ctx s).
Proof.
  intros [Hc Hp]. unfold selection_tracked.
  rewrite contexts_context_closed, pages_context_closed.
  set (s2 := pages_closed (pages_of ctx (_pages s))
               (set_contexts (Py.remove c (_contexts s)) s)).
  assert (Hp2 : forall p, _active_page_id s2 = Some p -> In p (keys (_pages s2))).
  { unfold s2. apply tracked_page_part_pages_closed. exact Hp. }
  assert (Ha2 : _active_context_id s2 = _active_context_id s).
  { unfold s2. now rewrite (proj2 (contexts_pages_closed _ _)). }
  unfold context_closed. cbn zeta. fold s2.
  destruct (opt_str_eqb (_active_context_id s) c) eqn:E.
  - destruct (Py.remove c (_contexts s)) as [|[c' ctx'] rest] eqn:Hrem.
    + split; [discriminate|exact Hp2].
    + split.
      * intros c0 [= <-]. now left.
      * intros p Hact. cbn [_active_page_id set_active_page_id] in Hact.
        destruct (first_page_of ctx' (_pages s2)) as [[p0 page0]|] eqn:Hf;
          [|discriminate].
        cbn in Hact. injection Hact as <-.
        destruct (first_page_of_Some _ _ _ _ Hf) as [Hin _].
        now apply In_keys in Hin.
  - split; [|exact Hp2].
    intros c0 Hact. change (_active_context_id s2 = Some c0) in Hact.
    rewrite Ha2 in Hact. apply keys_remove. split; [|now apply Hc].
    intros ->. rewrite Hact in E. cbn in E. now rewrite String.eqb_refl in E.
Qed.

Lemma find_owner_In page s c :
  owner_id page s = Some c -> In c (keys (_contexts s)).
Proof.
  unfold owner_id. destruct (find _ (_contexts s)) as [[c' ctx']|] eqn:E;
    [|discriminate].
  cbn. intros [= <-]. apply find_some in E. destruct E as [Hin _].
  now apply In_keys in Hin.
Qed.

(** Every public operation keeps the selection on tracked entries: if the
    active context and the active page were each unset or tracked before
    the call, they are so after it, whether the call returned or raised.
    (Five units of fuel are enough for every operation.) *)
Theorem selection_stays_tracked (fuel : nat) (o : operation) (s : t) :
  selection_tracked s ->
  selection_tracked (snd (run (5 + fuel) o s)).
Proof.
  intros H. destruct o as [|cid opts|cid pid|c|p|p|c|]; cbn [run].
  - change (5 + fuel) with (S (S (S (2 + fuel)))).
    destruct (browser_running (browser s)) eqn:Hrun.
    + now rewrite start_browser_running.
    + rewrite start_browser_down by assumption. now apply tracked_started.
  - unfold bind.
    pose proof (tracked_create_context (1 + fuel) cid opts s H) as H1.
    change (4 + (1 + fuel)) with (5 + fuel) in H1.
    destruct (create_context (5 + fuel) cid opts s) as [[r| |] s1]; exact H1.
  - unfold bind.
    pose proof (tracked_create_page fuel cid pid s H) as H1.
    destruct (create_page (5 + fuel) cid pid s) as [[r| |] s1]; exact H1.
  - unfold bind. destruct (Py.get c (_contexts s)) as [ctx|] eqn:E.
    + rewrite (set_active_context_tracked c ctx s E). cbn [ret snd].
      destruct H as [Hc Hp]. split.
      * intros c0 [= <-]. apply get_Some_In in E. now apply In_keys in E.
      * intros p Hact. cbn [_active_page_id set_active_page_id] in Hact.
        destruct (first_page_of ctx (_pages s)) as [[p0 page0]|] eqn:Hf;
          [|discriminate].
        cbn in Hact. injection Hact as <-.
        destruct (first_page_of_Some _ _ _ _ Hf) as [Hin _].
        now apply In_keys in Hin.
    + now rewrite (set_active_context_untracked c s E).
  - unfold bind. destruct (Py.get p (_pages s)) as [page|] eqn:E.
    + rewrite (set_active_page_tracked p page s E). cbn [ret snd].
      destruct H as [Hc Hp]. split.
      * cbn [_active_context_id set_active_context_id _contexts
             set_active_page_id].
        intros c0 Hact.
        destruct (owner_id page s) as [c1|] eqn:Ho.
        -- injection Hact as <-. now apply (find_owner_In page).
        -- now apply Hc.
      * intros p0 [= <-]. apply get_Some_In in E. now apply In_keys in E.
    + now rewrite (set_active_page_untracked p s E).
  - unfold bind. destruct H as [Hc Hp].
    pose proof (tracked_page_part_close_page p s Hp) as Hp'.
    destruct (contexts_close_page p s) as [Hk Ha].
    destruct (close_page p s) as [[r| |] s1]; cbn [snd ret] in *;
      (split; [rewrite Hk, Ha; exact Hc|exact Hp']).
  - unfold bind. destruct (Py.get c (_contexts s)) as [ctx|] eqn:E.
    + rewrite (close_context_tracked c ctx s E). cbn [ret snd].
      now apply tracked_context_closed.
    + unfold close_context. unfold bind at 1. unfold gets at 1.
      rewrite E. exact H.
  - rewrite close_browser_run. cbn [snd]. split; discriminate.
Qed.

Lemma selection_stays_tracked_witness :
  selection_tracked Scenario.fresh
  /\ selection_tracked (snd (run 5 StartBrowser Scenario.fresh)).
Proof.
  assert (H : selection_tracked Scenario.fresh) by (split; discriminate).
  split; [exact H|].
  exact (selection_stays_tracked 0 StartBrowser Scenario.fresh H).
Defined.

End RegistryMore.

(* ===================================================================== *)
(** ** Further properties of the dispatcher                               *)
(* ===================================================================== *)

Section DispatcherMore.
Import Utils Routes Main Envelope.

Variable page_action : handler -> json -> json -> M globals json.

Lemma api_method_handler_cases {W} (f : json -> json -> M W json)
  (params rpc_id : json) (w : W) :
  api_method_handler f params rpc_id w
  = match f params rpc_id w with
    | (Ok result, w') => (Ok (create_jsonrpc_success rpc_id result), w')
    | (Raise (RPCException code message id data), w') =>
        (Ok (create_jsonrpc_error
               (match id with JNull => rpc_id | _ => id end)
               code message data), w')
    | (Raise (PyError _ message), w') =>
        (Ok (create_jsonrpc_error rpc_id JSON_RPC_INTERNAL_ERROR
               ("Internal server error: " ++ message) JNull), w')
    | (OutOfFuel, w') => (OutOfFuel, w')
    end.
Proof.
  unfold api_method_handler, try_except, bind, ret.
  destruct (f params rpc_id w) as [[result|[code message id data|cls message]|] w'];
    reflexivity.
Qed.



(** [get_params] on a request object either returns an object or an
    array, the empty object when [params] is absent or null, or raises the
    InvalidParams [RPCException] that carries the request id.  It never
    hands a handler a string, a number or a boolean. *)
Theorem get_params_outcome {W} (members : dict json) (w : W) :
  (exists params,
     get_params (JObj members) w = (Ok params, w)
     /\ is_dict_or_list params = true
     /\ (dget "params" members JNull = JNull -> params = JObj []))
  \/ (is_dict_or_list (dget "params" members JNull) = false
      /\ get_params (JObj members) w
         = (Raise (RPCException JSON_RPC_INVALID_PARAMS
                     "Invalid params: Must be object or array."
                     (dget "id" members JNull) JNull), w)).
Proof.
  unfold get_params, py_get. unfold bind at 1. unfold ret at 1.
  destruct (dget "params" members JNull) as [| b | n | s | items | o];
    cbn [is_dict_or_list negb].
  - left. eexists. split; [reflexivity|]. split; [reflexivity|]. reflexivity.
  - right. split; reflexivity.
  - right. split; reflexivity.
  - right. split; reflexivity.
  - left. eexists. split; [reflexivity|]. split; [reflexivity|]. discriminate.
  - left. eexists. split; [reflexivity|]. split; [reflexivity|]. discriminate.
Qed.

(** A request that names a registered handler and carries well-shaped
    parameters gets exactly what the decorated handler returns: the
    dispatcher passes on the parameters, an empty object when they are
    absent or null, and the request id, and adds nothing to the answer. *)
Lemma jsonrpc_handler_dispatch fuel g members m h :
  json_str_eqb (dget "jsonrpc" members JNull) "2.0" = true ->
  Py.get "method" members = Some (JStr m) ->
  getattr (replace "."%char "_"%char m) = Some (Registered h) ->
  dget "params" members JNull = JNull
  \/ is_dict_or_list (dget "params" members JNull) = true ->
  jsonrpc_handler page_action fuel (Some (JObj members)) g
  = api_method_handler (body page_action fuel h)
      (match dget "params" members JNull with
       | JNull => JObj []
       | p => p
       end)
      (dget "id" members JNull) g.
Proof.
  intros Htag Hmethod Hattr Hparams.
  rewrite (jsonrpc_handler_envelope page_action fuel g members m Htag Hmethod).
  cbn zeta. rewrite Hattr.
  unfold try_except, get_params, py_get.
  unfold bind at 1. unfold bind at 1. unfold ret at 1.
  assert (Hpass : forall p,
    match call page_action fuel (Registered h) p (dget "id" members JNull) g with
    | (Raise e, s') =>
        match e with
        | RPCException code message _ data =>
            ret (create_jsonrpc_error (dget "id" members JNull) code
                   message data)
        | PyError _ message =>
            ret (create_jsonrpc_error (dget "id" members JNull)
                   JSON_RPC_INTERNAL_ERROR ("Server error: " ++ message) JNull)
        end s'
    | r => r
    end
    = api_method_handler (body page_action fuel h) p
        (dget "id" members JNull) g).
  { intros p. cbn [call]. rewrite api_method_handler_cases.
    destruct (body page_action fuel h p (dget "id" members JNull) g)
      as [[result|[code message id data|cls message]|] g']; reflexivity. }
  destruct Hparams as [Hp | Hp].
  - rewrite Hp. unfold ret at 1. apply Hpass.
  - destruct (dget "params" members JNull); try discriminate;
      cbn [is_dict_or_list negb]; unfold ret at 1; apply Hpass.
Qed.

(** Positional parameters are accepted by the validation and then break
    the handlers.  A JSON array as [params] passes [get_params], but
    [puppeteer.close_context] and [puppeteer.switch_context] read their
    parameters with [params.get]: the answer is an InternalError envelope,
    and the registry is not touched. *)
Theorem array_params_internal_error (fuel : nat) (g : globals)
  (members : dict json) (m : string) (items : list json) :
  json_str_eqb (dget "jsonrpc" members JNull) "2.0" = true ->
  Py.get "method" members = Some (JStr m) ->
  replace "."%char "_"%char m = "puppeteer_close_context"
  \/ replace "."%char "_"%char m = "puppeteer_switch_context" ->
  Py.get "params" members = Some (JArr items) ->
  jsonrpc_handler page_action fuel (Some (JObj members)) g
  = (Ok (create_jsonrpc_error (dget "id" members JNull)
           JSON_RPC_INTERNAL_ERROR
           "Internal server error: 'list' object has no attribute 'get'"
           JNull), g).
Proof.
  intros Htag Hmethod Hname Hparams.
  pose proof (get_dget _ _ JNull _ Hparams) as Hp.
  destruct Hname as [Hname | Hname].
  - rewrite (jsonrpc_handler_dispatch fuel g members m h_close_context
               Htag Hmethod);
      [|now rewrite Hname|right; now rewrite Hp].
    rewrite Hp, api_method_handler_cases. reflexivity.
  - rewrite (jsonrpc_handler_dispatch fuel g members m h_switch_context
               Htag Hmethod);
      [|now rewrite Hname|right; now rewrite Hp].
    rewrite Hp, api_method_handler_cases. reflexivity.
Qed.

(** [puppeteer.switch_context] on a manager that is up.  For a tracked
    context the answer is a success envelope that reports the context as
    active, with the first tracked page of that context, or [null] when it
    has none, as active page; the registry holds that selection.  For an
    identifier that is not tracked the answer is an error envelope with
    code [BROWSER_OPERATION_ERROR] and the registry is unchanged. *)
Theorem switch_context_rpc (fuel : nat) (m : BrowserManager.t) (l : loader_ref)
  (params : dict json) (cid : string) (rpc_id : json) :
  Py.get "context_id" params = Some (JStr cid) ->
  cid <> "" ->
  call page_action fuel (Registered h_switch_context) (JObj params) rpc_id
    (mkGlobals (Manager m) l)
  = match Py.get cid (BrowserManager._contexts m) with
    | Some ctx =>
        let active_page :=
          option_map fst
            (BrowserManager.first_page_of ctx (BrowserManager._pages m)) in
        (Ok (create_jsonrpc_success rpc_id
               (JObj [("status", JStr "success");
                      ("active_context_id", JStr cid);
                      ("active_page_id", json_of_opt_str active_page)])),
         mkGlobals
           (Manager (BrowserManager.set_active_page_id active_page
                       (BrowserManager.set_active_context_id (Some cid) m)))
           l)
    | None =>
        (Ok (create_jsonrpc_error rpc_id BROWSER_OPERATION_ERROR
               ("Failed to switch context: Failed to switch to context ID '"
                ++ cid ++ "'. Context not found.") JNull),
         mkGlobals (Manager m) l)
    end.
Proof.
  intros Hid Hne. cbn [call]. rewrite api_method_handler_cases.
  unfold body, puppeteer_switch_context, py_get.
  rewrite (get_dget _ _ JNull _ Hid).
  unfold bind at 1. unfold ret at 1.
  cbn [truthy]. apply String.eqb_neq in Hne. rewrite Hne. cbn [negb].
  unfold bind at 1. unfold gets at 1.
  cbn [_browser_manager manager_truthy negb].
  unfold try_except at 1. unfold bind at 1. unfold on_manager at 1.
  cbn [_browser_manager _config_loader].
  destruct (Py.get cid (BrowserManager._contexts m)) as [ctx|] eqn:E.
  - rewrite (set_active_context_tracked cid ctx m E). reflexivity.
  - rewrite (set_active_context_untracked cid m E).
    unfold raise. cbn [str_of_exn]. now rewrite same_id.
Qed.


(** *** The page a handler works on *)

Lemma on_manager_run {A} attr (k : M BrowserManager.t A) m l :
  on_manager attr k (mkGlobals (Manager m) l)
  = (fst (k m), mkGlobals (Manager (snd (k m))) l).
Proof.
  unfold on_manager. cbn [_browser_manager _config_loader].
  now destruct (k m).
Qed.

(** With any page tracked, [_get_active_page_or_raise] returns the page
    [get_active_page] selects and touches nothing: no page is created and
    the driver is not called. *)
Theorem active_page_or_raise_existing (fuel : nat) (m : BrowserManager.t)
  (l : loader_ref) :
  BrowserManager._pages m <> [] ->
  exists page,
    BrowserManager.get_active_page m = Some page
    /\ In page (values (BrowserManager._pages m))
    /\ _get_active_page_or_raise fuel (mkGlobals (Manager m) l)
       = (Ok page, mkGlobals (Manager m) l).
Proof.
  intros Hpages.
  destruct (BrowserManager.get_active_page m) as [page|] eqn:E.
  - exists page. split; [reflexivity|].
    split; [now apply get_active_page_tracked_page|].
    unfold _get_active_page_or_raise, gets.
    unfold bind at 1. cbn [_browser_manager manager_truthy negb].
    unfold bind at 1. rewrite on_manager_run. cbn [fst snd].
    now rewrite E.
  - apply get_active_page_none_iff in E. contradiction.
Qed.

Lemma set_not_nil {V} (k : string) (v : V) (d : dict V) : Py.set k v d <> [].
Proof.
  destruct d as [|[k0 v0] d]; cbn [Py.set]; [discriminate|].
  destruct (k0 =? k); discriminate.
Qed.

Lemma pages_page_created_not_nil ctx page_id s :
  BrowserManager._pages (Registry.page_created ctx page_id s) <> [].
Proof. unfold Registry.page_created. cbn. apply set_not_nil. Qed.

Lemma create_page_default_ok fuel s :
  Registry.selection_tracked s ->
  exists p,
    fst (BrowserManager.create_page (5 + fuel) None None s) = Ok p
    /\ BrowserManager._pages
         (snd (BrowserManager.create_page (5 + fuel) None None s)) <> [].
Proof.
  intros [Hc _]. change (5 + fuel) with (S (4 + fuel)).
  rewrite create_page_split. unfold Registry.resolve_target. cbn zeta.
  cbn [str_truthy].
  assert (Hheal : exists p,
    fst (match BrowserManager.create_context (4 + fuel) None None s with
         | (Ok c, s1) =>
             match Py.get c (BrowserManager._contexts s1) with
             | Some ctx =>
                 (Ok (Registry.new_page_id None s1),
                  Registry.page_created ctx None s1)
             | None => (Raise (PyError "KeyError" c), s1)
             end
         | (Raise e, s1) => (Raise e, s1)
         | (OutOfFuel, s1) => (OutOfFuel, s1)
         end) = Ok p
    /\ BrowserManager._pages
         (snd (match BrowserManager.create_context (4 + fuel) None None s with
               | (Ok c, s1) =>
                   match Py.get c (BrowserManager._contexts s1) with
                   | Some ctx =>
                       (Ok (Registry.new_page_id None s1),
                        Registry.page_created ctx None s1)
                   | None => (Raise (PyError "KeyError" c), s1)
                   end
               | (Raise e, s1) => (Raise e, s1)
               | (OutOfFuel, s1) => (OutOfFuel, s1)
               end)) <> []).
  { change (4 + fuel) with (S (S (S (S fuel)))).
    destruct (BrowserManager.browser_running (BrowserManager.browser s)) eqn:Hrun.
    - destruct (running_browser s Hrun) as (b & Hb & Hconn).
      rewrite create_context_running with (b := b) by assumption.
      rewrite contexts_context_created, get_set_same. cbn [fst snd].
      eexists. split; [reflexivity|apply pages_page_created_not_nil].
    - rewrite create_context_down by assumption.
      rewrite contexts_context_created, get_set_same. cbn [fst snd].
      eexists. split; [reflexivity|apply pages_page_created_not_nil]. }
  destruct (BrowserManager._active_context_id s) as [c|] eqn:Ha;
    cbn [str_truthy negb orb BrowserManager.opt_in]; [|exact Hheal].
  destruct (String.eqb_spec c "") as [->|Hne]; cbn [negb orb]; [exact Hheal|].
  assert (Hin : contains c (BrowserManager._contexts s) = true)
    by (apply contains_true; now apply Hc).
  rewrite Hin. cbn [negb]. unfold contains in Hin.
  destruct (Py.get c (BrowserManager._contexts s)) as [ctx|]; [|discriminate].
  cbn [fst snd]. eexists. split; [reflexivity|apply pages_page_created_not_nil].
Qed.

(** With no page tracked, [_get_active_page_or_raise] creates one.  On a
    manager whose selection points at tracked entries the creation
    succeeds, in the active context or in a new default context when none
    is active, and the function returns a page that [get_active_page]
    finds in the registry afterwards.  The branch that reports "failed to
    create a new one" is never taken. *)
Theorem active_page_or_raise_heals (fuel : nat) (m : BrowserManager.t)
  (l : loader_ref) :
  BrowserManager._pages m = [] ->
  Registry.selection_tracked m ->
  let m' := snd (BrowserManager.create_page (5 + fuel) None None m) in
  exists page,
    _get_active_page_or_raise (5 + fuel) (mkGlobals (Manager m) l)
    = (Ok page, mkGlobals (Manager m') l)
    /\ BrowserManager.get_active_page m' = Some page
    /\ In page (values (BrowserManager._pages m')).
Proof.
  intros Hempty Htracked. cbn zeta.
  destruct (create_page_default_ok fuel m Htracked) as (p & Hok & Hpages).
  destruct (BrowserManager.get_active_page
              (snd (BrowserManager.create_page (5 + fuel) None None m)))
    as [page|] eqn:E.
  2:{ apply get_active_page_none_iff in E. contradiction. }
  exists page. split; [|split; [reflexivity|]].
  - unfold _get_active_page_or_raise, gets.
    unfold bind at 1. cbn [_browser_manager manager_truthy negb].
    unfold bind at 1. rewrite on_manager_run. cbn [fst snd].
    assert (Hnone : BrowserManager.get_active_page m = None)
      by now apply get_active_page_none_iff.
    rewrite Hnone.
    unfold try_except. unfold bind at 1. rewrite on_manager_run.
    rewrite Hok. unfold bind at 1. rewrite on_manager_run.
    cbn [fst snd]. now rewrite E.
  - now apply get_active_page_tracked_page.
Qed.

End DispatcherMore.

Lemma switch_context_rpc_witness :
  Py.get "context_id" [("context_id", JStr "ghost")] = Some (JStr "ghost")
  /\ fst (Routes.call Scenario.page_action 0
            (Routes.Registered Routes.h_switch_context)
            (JObj [("context_id", JStr "ghost")]) (JNum 3) Scenario.globals)
     = Ok (Utils.create_jsonrpc_error (JNum 3) Utils.BROWSER_OPERATION_ERROR
             "Failed to switch context: Failed to switch to context ID 'ghost'. Context not found."
             JNull).
Proof.
  split; [reflexivity|].
  assert (Hne : "ghost" <> "") by discriminate.
  unfold Scenario.globals.
  now rewrite (switch_context_rpc Scenario.page_action 0 Scenario.after_startup
                 (Routes.Loader Scenario.cfg) [("context_id", JStr "ghost")]
                 "ghost" (JNum 3) eq_refl Hne).
Defined.

Lemma array_params_internal_error_witness :
  fst (Main.jsonrpc_handler Scenario.page_action 0
         (Scenario.request "puppeteer.close_context"
            (JArr [JStr "initial_default_context"]) (JNum 4))
         Scenario.globals)
  = Ok (Utils.create_jsonrpc_error (JNum 4) Utils.JSON_RPC_INTERNAL_ERROR
          "Internal server error: 'list' object has no attribute 'get'" JNull).
Proof.
  unfold Scenario.request.
  now rewrite (array_params_internal_error Scenario.page_action 0
                 Scenario.globals
                 [("jsonrpc", JStr "2.0");
                  ("method", JStr "puppeteer.close_context");
                  ("params", JArr [JStr "initial_default_context"]);
                  ("id", JNum 4)]
                 "puppeteer.close_context" [JStr "initial_default_context"]
                 eq_refl eq_refl (or_introl eq_refl) eq_refl).
Defined.

Lemma non_handler_internal_error_witness :
  exists message g',
    Main.jsonrpc_handler Scenario.page_action 0
      (Scenario.request "os" (JObj []) (JNum 5)) Scenario.globals
    = (Ok (Utils.create_jsonrpc_error (JNum 5) Utils.JSON_RPC_INTERNAL_ERROR
             ("Server error: " ++ message) JNull), g').
Proof.
  assert (Hnot : forall h,
            Routes.NotAHandler "'module' object is not callable"
            <> Routes.Registered h) by discriminate.
  exact (non_handler_internal_error Scenario.page_action 0 Scenario.globals
           [("jsonrpc", JStr "2.0"); ("method", JStr "os");
            ("params", JObj []); ("id", JNum 5)]
           "os" (Routes.NotAHandler "'module' object is not callable")
           eq_refl eq_refl eq_refl Hnot (or_introl eq_refl)).
Defined.

(* ===================================================================== *)
(** ** The configuration loader                                           *)
(* ===================================================================== *)

Lemma load_config_ok (path : string) (file : ConfigLoader.file_outcome)
  (members : dict json) :
  ConfigLoader.new path file = Ok (ConfigLoader.mk members) ->
  file = ConfigLoader.FileContent (JObj members)
  /\ is_dict (dget "service" members JNull) = true
  /\ is_str (dget "browser_type" members JNull) = true.
Proof.
  unfold ConfigLoader.new, ConfigLoader._load_config.
  destruct file as [| |config_data]; try discriminate.
  destruct config_data as [| b | n | s | items | o]; try discriminate.
  destruct (is_dict (dget "service" o JNull)) eqn:Hs; cbn [negb];
    [|discriminate].
  destruct (is_str (dget "browser_type" o JNull)) eqn:Hb; cbn [negb];
    [|discriminate].
  intros [= <-]. auto.
Qed.

(** [ConfigLoader(path)] succeeds exactly on a file that holds a JSON
    object whose [service] member is an object and whose [browser_type]
    member is a string; the loader then keeps that object unchanged. *)
Theorem load_config_accepts (path : string) (file : ConfigLoader.file_outcome)
  (members : dict json) :
  ConfigLoader.new path file = Ok (ConfigLoader.mk members)
  <-> file = ConfigLoader.FileContent (JObj members)
      /\ is_dict (dget "service" members JNull) = true
      /\ is_str (dget "browser_type" members JNull) = true.
Proof.
  split; [apply load_config_ok|].
  intros (-> & Hs & Hb).
  unfold ConfigLoader.new, ConfigLoader._load_config. now rewrite Hs, Hb.
Qed.

(** A loader that was built from a file can be read without failure:
    [get_service_config] returns the four service settings, each taken from
    the file or else from its default, and the [browser_type] that
    [get_browser_config] reports is a string. *)
Theorem loaded_config_usable (path : string) (file : ConfigLoader.file_outcome)
  (cfg : ConfigLoader.t) :
  ConfigLoader.new path file = Ok cfg ->
  (exists service,
     ConfigLoader.get cfg "service" (JObj []) = JObj service
     /\ ConfigLoader.get_service_config cfg
        = Ok [ ("host", dget "host" service (JStr "0.0.0.0"));
               ("port", dget "port" service (JNum 8080));
               ("log_level", dget "log_level" service (JStr "INFO"));
               ("default_timeout", dget "default_timeout" service (JNum 30000)) ])
  /\ (exists browser_type,
        dget "browser_type" (ConfigLoader.get_browser_config cfg) JNull
        = JStr browser_type).
Proof.
  destruct cfg as [members]. intros Hnew.
  destruct (load_config_ok path file members Hnew) as (_ & Hs & Hb).
  unfold ConfigLoader.get_service_config, ConfigLoader.get.
  cbn [ConfigLoader.config]. split.
  - unfold dget in *. destruct (Py.get "service" members) as [v|];
      [|discriminate].
    destruct v; try discriminate. eexists. split; reflexivity.
  - change (dget "browser_type"
              (ConfigLoader.get_browser_config (ConfigLoader.mk members)) JNull)
      with (dget "browser_type" members (JStr "chromium")).
    unfold dget in *. destruct (Py.get "browser_type" members) as [v|];
      [|discriminate].
    destruct v; try discriminate. eexists. reflexivity.
Qed.

Lemma loaded_config_usable_witness :
  ConfigLoader.new "config.json"
    (ConfigLoader.FileContent (JObj (ConfigLoader.config Scenario.cfg)))
  = Ok Scenario.cfg
  /\ ConfigLoader.get_service_config Scenario.cfg
     = Ok [ ("host", JStr "0.0.0.0"); ("port", JNum 8080);
            ("log_level", JStr "INFO"); ("default_timeout", JNum 30000) ].
Proof.
  split; [reflexivity|].
  destruct (loaded_config_usable "config.json"
              (ConfigLoader.FileContent (JObj (ConfigLoader.config Scenario.cfg)))
              Scenario.cfg eq_refl) as [(service & Hget & Hcfg) _].
  rewrite Hcfg. cbn in Hget. injection Hget as <-. reflexivity.
Defined.


Lemma active_page_or_raise_existing_witness :
  BrowserManager._pages Scenario.after_startup <> []
  /\ exists page,
       Routes._get_active_page_or_raise 0 Scenario.globals
       = (Ok page, Scenario.globals).
Proof.
  assert (H : BrowserManager._pages Scenario.after_startup <> [])
    by discriminate.
  split; [exact H|].
  destruct (active_page_or_raise_existing 0 Scenario.after_startup
              (Routes.Loader Scenario.cfg) H) as (page & _ & _ & Hrun).
  exists page. exact Hrun.
Defined.

Lemma active_page_or_raise_heals_witness :
  BrowserManager._pages Scenario.emptied = []
  /\ Registry.selection_tracked Scenario.emptied
  /\ exists page g',
       Routes._get_active_page_or_raise 5
         (Routes.mkGlobals (Routes.Manager Scenario.emptied)
            (Routes.Loader Scenario.cfg))
       = (Ok page, g').
Proof.
  assert (H : Registry.selection_tracked Scenario.emptied).
  { unfold Registry.selection_tracked.
    replace (BrowserManager._active_context_id Scenario.emptied)
      with (@None string) by reflexivity.
    replace (BrowserManager._active_page_id Scenario.emptied)
      with (@None string) by reflexivity.
    split; intros x Hx; discriminate Hx. }
  split; [reflexivity|]. split; [exact H|].
  destruct (active_page_or_raise_heals 0 Scenario.emptied
              (Routes.Loader Scenario.cfg) eq_refl H) as (page & Hrun & _).
  exists page. eexists. exact Hrun.
Defined.
